(** * Code Context Provider: traversal and extraction engine

    A shallow embedding of [src/index.js]: the ignore-pattern compiler
    ([parseGitignore], [shouldIgnore]), the file classifier
    ([isSupportedFile]), the symbol extractor ([extractCodeSymbols]) and the
    directory walker ([getDirectoryTree]), followed by the properties
    established about them.

    Conventions.  A JavaScript string is a sequence of code units; it is
    modelled by [string], one [ascii] per code unit.  [null] and [undefined]
    are [None].  A call that may throw yields an [Outcome]: the value it
    returns or the error it throws.  The module-level state ([initialized],
    [languageInstances], the console, [codeSymbols]) is passed explicitly. *)

From Stdlib Require Import String Ascii List ZArith Lia Bool Decimal DecimalString.
From stdpp Require Import base decidable option list gmap strings.

Import ListNotations.
Local Open Scope Z_scope.
Local Open Scope nat_scope.
Local Open Scope list_scope.

Set Default Proof Using "Type".

(* ================================================================== *)
(** * JavaScript string methods used by the source *)
(* ================================================================== *)

Module Js.

Abbreviation chars := list_ascii_of_string.
Abbreviation str := string_of_list_ascii.

(** [s.length] *)
Definition length (s : string) : nat := String.length s.

(** [s.startsWith(p)] *)
Definition startsWith (s p : string) : bool := String.prefix p s.

Fixpoint prefixb (p s : list ascii) : bool :=
  match p, s with
  | [], _ => true
  | _ :: _, [] => false
  | a :: p', b :: s' => if ascii_dec a b then prefixb p' s' else false
  end.

(** [s.endsWith(p)] *)
Definition endsWith (s p : string) : bool :=
  prefixb (rev (chars p)) (rev (chars s)).

Fixpoint includesl (s sub : list ascii) : bool :=
  prefixb sub s || match s with [] => false | _ :: s' => includesl s' sub end.

(** [s.includes(sub)] *)
Definition includes (s sub : string) : bool := includesl (chars s) (chars sub).

(** [s.slice(0, n)] for a non-negative [n] *)
Definition slice0 (s : string) (n : nat) : string := str (take n (chars s)).

(** [s.slice(i)] and [s.substring(i)] for a non-negative [i] *)
Definition sliceFrom (s : string) (i : nat) : string := str (drop i (chars s)).

Definition lowerChar (c : ascii) : ascii :=
  let n := nat_of_ascii c in
  if (65 <=? n) && (n <=? 90) then ascii_of_nat (n + 32) else c.

(** [s.toLowerCase()] on the ASCII range *)
Definition toLowerCase (s : string) : string := str (map lowerChar (chars s)).

(** White space as [String.prototype.trim] sees it in the ASCII range:
    TAB, LF, VT, FF, CR and SPACE. *)
Definition isSpace (c : ascii) : bool :=
  let n := nat_of_ascii c in
  ((9 <=? n) && (n <=? 13)) || (n =? 32).

Fixpoint dropWhile {A} (f : A -> bool) (l : list A) : list A :=
  match l with
  | [] => []
  | x :: l' => if f x then dropWhile f l' else l
  end.

Definition dropWhileEnd {A} (f : A -> bool) (l : list A) : list A :=
  rev (dropWhile f (rev l)).

(** [s.trim()] *)
Definition trim (s : string) : string :=
  str (dropWhileEnd isSpace (dropWhile isSpace (chars s))).

(** [s.split(sep)] for a one-character separator: never the empty array. *)
Fixpoint splitl (sep : ascii) (cur : list ascii) (s : list ascii) : list (list ascii) :=
  match s with
  | [] => [rev cur]
  | c :: s' =>
      if ascii_dec c sep then rev cur :: splitl sep [] s'
      else splitl sep (c :: cur) s'
  end.

Definition split (s : string) (sep : ascii) : list string :=
  map str (splitl sep [] (chars s)).

(** [parts.join(sep)] *)
Fixpoint join (sep : string) (parts : list string) : string :=
  match parts with
  | [] => EmptyString
  | [p] => p
  | p :: rest => p +:+ sep +:+ join sep rest
  end.

(** [s.replace(/lit/g, rep)] for a pattern that matches the literal
    [lit] only: leftmost matches, not overlapping, the replacement is not
    scanned again.  [skip] counts the characters of a match still to be
    passed over. *)
Fixpoint replaceAllFrom (lit rep : list ascii) (skip : nat) (s : list ascii) : list ascii :=
  match s with
  | [] => []
  | c :: s' =>
      match skip with
      | S k => replaceAllFrom lit rep k s'
      | O =>
          if prefixb lit s
          then rep ++ replaceAllFrom lit rep (List.length lit - 1) s'
          else c :: replaceAllFrom lit rep 0 s'
      end
  end.

Definition replaceAll (s lit rep : string) : string :=
  match chars lit with
  | [] => s
  | l => str (replaceAllFrom l (chars rep) 0 (chars s))
  end.

(** [s.replace] with the global pattern for a single or a double quote and the
    empty replacement: every quote character is removed. *)
Definition isQuote (c : ascii) : bool :=
  if ascii_dec c "'" then true else if ascii_dec c (ascii_of_nat 34) then true else false.

Definition stripQuotes (s : string) : string :=
  str (List.filter (fun c => negb (isQuote c)) (chars s)).

(** [s.replace] with the pattern for a run of slashes at the end and the empty
    replacement. *)
Definition isSlash (c : ascii) : bool := if ascii_dec c "/" then true else false.

Definition stripTrailingSlashes (s : string) : string :=
  str (dropWhileEnd isSlash (chars s)).

(** A string in a condition: the empty string is falsy. *)
Definition truthy (s : string) : bool :=
  match s with EmptyString => false | _ => true end.

(** Template-literal interpolation of a non-negative integer. *)
Definition ofNat (n : nat) : string := NilEmpty.string_of_uint (Nat.to_uint n).

Definition eqb (a b : string) : bool := if string_dec a b then true else false.

(** [arr.includes(x)] on an array of strings *)
Definition inList (x : string) (l : list string) : bool := existsb (eqb x) l.

End Js.

(* ================================================================== *)
(** * The parser interface: syntax trees *)
(* ================================================================== *)

(** The grammar engine is an external collaborator.  What the source reads
    from a tree is modelled here: a node has a type tag, its source text, a
    start and an end point, and children, each under an optional field name.
    Tokens such as keywords and punctuation are unnamed nodes. *)

Record Point := mkPoint { row : nat; column : nat }.

#[local] Unset Elimination Schemes.
Inductive Node := mkNode {
  ntype : string;
  isNamed : bool;
  ntext : string;
  nstart : Point;
  nend : Point;
  nchildren : list (option string * Node) }.
#[local] Set Elimination Schemes.

Definition Child : Type := option string * Node.

(** A node as the source holds it: the node, the siblings after it, and the
    chain of its ancestors, nearest first, each with its own later siblings.
    This is what makes [parent] and [nextNamedSibling] computable. *)
Record SyntaxNode := mkSyntaxNode {
  here : Node;
  after : list Child;
  above : list (Node * list Child) }.

Definition rootOf (n : Node) : SyntaxNode := mkSyntaxNode n [] [].

(** [node.type], [node.text], [node.startPosition], [node.endPosition] *)
Definition type (n : SyntaxNode) : string := ntype (here n).
Definition text (n : SyntaxNode) : string := ntext (here n).
Definition startPosition (n : SyntaxNode) : Point := nstart (here n).
Definition endPosition (n : SyntaxNode) : Point := nend (here n).

(** [node.parent] *)
Definition parentNode (n : SyntaxNode) : option SyntaxNode :=
  match above n with
  | [] => None
  | (p, sibs) :: up => Some (mkSyntaxNode p sibs up)
  end.

(** The children of [n], each with its field name, in source order. *)
Fixpoint childrenFrom (p : Node * list Child) (up : list (Node * list Child))
    (cs : list Child) : list (option string * SyntaxNode) :=
  match cs with
  | [] => []
  | (f, c) :: rest => (f, mkSyntaxNode c rest (p :: up)) :: childrenFrom p up rest
  end.

Definition fieldChildren (n : SyntaxNode) : list (option string * SyntaxNode) :=
  childrenFrom (here n, after n) (above n) (nchildren (here n)).

(** [node.children] *)
Definition children (n : SyntaxNode) : list SyntaxNode := map snd (fieldChildren n).

(** [node.namedChildren] *)
Definition namedChildren (n : SyntaxNode) : list SyntaxNode :=
  List.filter (fun c => isNamed (here c)) (children n).

(** [node.firstNamedChild] *)
Definition firstNamedChild (n : SyntaxNode) : option SyntaxNode := head (namedChildren n).

(** [node.childForFieldName(f)]: the first child under field [f]. *)
Definition childForFieldName (n : SyntaxNode) (f : string) : option SyntaxNode :=
  snd <$> List.find (fun fc => match fst fc with Some g => Js.eqb g f | None => false end)
                    (fieldChildren n).

(** [node.nextNamedSibling] *)
Fixpoint nextNamedFrom (up : list (Node * list Child)) (sibs : list Child) : option SyntaxNode :=
  match sibs with
  | [] => None
  | (_, c) :: rest => if isNamed c then Some (mkSyntaxNode c rest up) else nextNamedFrom up rest
  end.

Definition nextNamedSibling (n : SyntaxNode) : option SyntaxNode :=
  nextNamedFrom (above n) (after n).

(** The node and everything below it, in document order (a node before its
    children, children left to right). *)
Fixpoint subtree (n : Node) (sibs : list Child) (up : list (Node * list Child))
    {struct n} : list SyntaxNode :=
  mkSyntaxNode n sibs up ::
  match n with
  | mkNode _ _ _ _ _ cs =>
      (fix each (l : list Child) : list SyntaxNode :=
         match l with
         | [] => []
         | (_, c) :: rest => subtree c rest ((n, sibs) :: up) ++ each rest
         end) cs
  end.

Definition descendants (n : SyntaxNode) : list SyntaxNode :=
  subtree (here n) (after n) (above n).

(** [node.descendantsOfType(types)]: the walk starts at the node itself and
    keeps every node whose type tag is one of [types], named or not.  (The
    engine passes over nodes that end at the very start of the text; no node
    with text does.) *)
Definition descendantsOfType (n : SyntaxNode) (types : list string) : list SyntaxNode :=
  List.filter (fun d => Js.inList (type d) types) (descendants n).

(* ================================================================== *)
(** * Symbol records *)
(* ================================================================== *)

Record Position := mkPosition {
  startLine : nat; startCol : nat; endLine : nat; endCol : nat }.

Record FunctionRec := mkFunction {
  fn_name : string; fn_parent : option string; fn_position : Position; fn_code : string }.

Record VariableRec := mkVariable {
  var_name : string; var_kind : string; var_position : Position; var_code : string }.

Record MethodRec := mkMethod {
  m_name : string; m_position : Position; m_isStatic : bool; m_code : string }.

Record ClassRec := mkClass {
  cls_name : string; cls_position : Position; cls_methods : list MethodRec; cls_code : string }.

Record Item := mkItem { item_name : string; item_alias : option string }.

Record ImportRec := mkImport {
  imp_source : string; imp_items : list Item; imp_position : Position; imp_code : string }.

Record ExportRec := mkExport {
  exp_source : option string; exp_items : list Item; exp_isDefault : bool;
  exp_position : Position; exp_code : string }.

Record FileSymbolTable := mkTable {
  functions : list FunctionRec;
  variables : list VariableRec;
  classes : list ClassRec;
  imports : list ImportRec;
  exports : list ExportRec }.

(* ================================================================== *)
(** * The symbol extractor: helpers of [extractCodeSymbols] *)
(* ================================================================== *)

Definition getPosition (node : SyntaxNode) : Position :=
  {| startLine := row (startPosition node) + 1;
     startCol := column (startPosition node);
     endLine := row (endPosition node) + 1;
     endCol := column (endPosition node) |}.

(** [a?.type === t] *)
Definition typeIs (n : option SyntaxNode) (t : string) : bool :=
  match n with Some x => Js.eqb (type x) t | None => false end.

(** [a?.text === t] *)
Definition textIs (n : option SyntaxNode) (t : string) : bool :=
  match n with Some x => Js.eqb (text x) t | None => false end.

Definition isSignificantFunction (node : SyntaxNode) (name : string) : bool :=
  if Js.eqb (type node) "arrow_function" && (Js.length (text node) <? 15) then false
  else
    let callback :=
      match parentNode node with
      | Some parent =>
          if (Js.eqb (type parent) "call_expression" || Js.eqb (type parent) "member_expression")
             && (Js.length (text node) <? 50)
          then
            let callText := Js.toLowerCase (Js.slice0 (text parent) 30) in
            Js.includes callText ".map(" ||
            Js.includes callText ".filter(" ||
            Js.includes callText ".forEach(" ||
            Js.includes callText ".find(" ||
            Js.includes callText ".reduce("
          else false
      | None => false
      end in
    if callback then false
    else negb (Js.eqb name "anonymous") || (100 <? Js.length (text node)).

Definition inferFunctionName (node : SyntaxNode) : string :=
  let name := "anonymous" in
  match parentNode node with
  | Some parent =>
      if Js.eqb (type parent) "variable_declarator" then
        match childForFieldName parent "name" with
        | Some nameNode => text nameNode
        | None => name
        end
      else if Js.eqb (type parent) "pair" && typeIs (parentNode parent) "object" then
        match childForFieldName parent "key" with
        | Some keyNode => Js.stripQuotes (text keyNode)
        | None => name
        end
      else if Js.eqb (type parent) "assignment_expression" then
        match childForFieldName parent "left" with
        | Some leftNode =>
            if Js.eqb (type leftNode) "member_expression" then
              match childForFieldName leftNode "property" with
              | Some propertyNode => text propertyNode
              | None => name
              end
            else text leftNode
        | None => name
        end
      else if Js.eqb (type parent) "property_identifier"
              && typeIs (parentNode parent) "member_expression" then
        text parent
      else name
  | None => name
  end.

(** ** The JavaScript family *)

(** One turn of the loop over [functionNodes]: the record pushed, if any. *)
Definition jsFunctionOf (node : SyntaxNode) : option FunctionRec :=
  let '(name, parentFunction) :=
    if Js.eqb (type node) "function_declaration" then
      (match firstNamedChild node with
       | Some nameNode => text nameNode
       | None => "anonymous"
       end, None)
    else if Js.eqb (type node) "method_definition" then
      (match childForFieldName node "name" with
       | Some nameNode => text nameNode
       | None => "anonymous"
       end,
       match parentNode node ≫= parentNode with
       | Some classNode =>
           if Js.eqb (type classNode) "class_declaration" then
             text <$> childForFieldName classNode "name"
           else None
       | None => None
       end)
    else if Js.eqb (type node) "function" || Js.eqb (type node) "arrow_function" then
      (inferFunctionName node, None)
    else ("anonymous", None) in
  if isSignificantFunction node name then
    Some {| fn_name := name; fn_parent := parentFunction;
            fn_position := getPosition node; fn_code := text node |}
  else None.

Definition jsFunctions (rootNode : SyntaxNode) : list FunctionRec :=
  omap jsFunctionOf
    (descendantsOfType rootNode
       ["function_declaration"; "method_definition"; "arrow_function"; "function"]).

(** [a?.text || d] *)
Definition textOr (n : option SyntaxNode) (d : string) : string :=
  match n with
  | Some x => if Js.truthy (text x) then text x else d
  | None => d
  end.

Definition jsVariablesOf (node : SyntaxNode) : list VariableRec :=
  omap (fun declarator =>
          match childForFieldName declarator "name" with
          | Some nameNode =>
              Some {| var_name := text nameNode;
                      var_kind := textOr (childForFieldName node "kind") "var";
                      var_position := getPosition declarator;
                      var_code := text declarator |}
          | None => None
          end)
       (descendantsOfType node ["variable_declarator"]).

Definition jsVariables (rootNode : SyntaxNode) : list VariableRec :=
  flat_map jsVariablesOf
    (descendantsOfType rootNode ["variable_declaration"; "lexical_declaration"]).

Definition jsMethodOf (methodNode : SyntaxNode) : option MethodRec :=
  match childForFieldName methodNode "name" with
  | Some methodNameNode =>
      Some {| m_name := text methodNameNode;
              m_position := getPosition methodNode;
              m_isStatic := textIs (childForFieldName methodNode "static") "static";
              m_code := text methodNode |}
  | None => None
  end.

Definition jsClassOf (node : SyntaxNode) : option ClassRec :=
  match childForFieldName node "name" with
  | Some nameNode =>
      Some {| cls_name := text nameNode;
              cls_position := getPosition node;
              cls_methods := omap jsMethodOf (descendantsOfType node ["method_definition"]);
              cls_code := text node |}
  | None => None
  end.

Definition jsClasses (rootNode : SyntaxNode) : list ClassRec :=
  omap jsClassOf (descendantsOfType rootNode ["class_declaration"]).

Definition jsImportItemOf (specNode : SyntaxNode) : option Item :=
  if Js.eqb (type specNode) "import_specifier" then
    match childForFieldName specNode "name" with
    | Some nameNode =>
        Some {| item_name := text nameNode;
                item_alias := text <$> childForFieldName specNode "alias" |}
    | None => None
    end
  else if Js.eqb (type specNode) "namespace_import" then
    match childForFieldName specNode "name" with
    | Some nameNode => Some {| item_name := "*"; item_alias := Some (text nameNode) |}
    | None => None
    end
  else None.

Definition jsImportOf (node : SyntaxNode) : option ImportRec :=
  match childForFieldName node "source" with
  | Some sourceNode =>
      let specifiers := descendantsOfType node ["import_specifier"; "namespace_import"] in
      let importedItems := omap jsImportItemOf specifiers in
      let defaultItem :=
        match head (descendantsOfType node ["identifier"]), specifiers with
        | Some defaultImportNode, [] =>
            [ {| item_name := "default"; item_alias := Some (text defaultImportNode) |} ]
        | _, _ => []
        end in
      Some {| imp_source := Js.stripQuotes (text sourceNode);
              imp_items := importedItems ++ defaultItem;
              imp_position := getPosition node;
              imp_code := text node |}
  | None => None
  end.

Definition jsImports (rootNode : SyntaxNode) : list ImportRec :=
  omap jsImportOf (descendantsOfType rootNode ["import_statement"]).

Definition jsExportItemOf (specNode : SyntaxNode) : option Item :=
  match childForFieldName specNode "name" with
  | Some nameNode =>
      Some {| item_name := text nameNode;
              item_alias := text <$> childForFieldName specNode "alias" |}
  | None => None
  end.

Definition jsExportOf (node : SyntaxNode) : option ExportRec :=
  if Js.eqb (type node) "export_statement" then
    Some {| exp_source := (fun sourceNode => Js.stripQuotes (text sourceNode))
                            <$> childForFieldName node "source";
            exp_items := omap jsExportItemOf (descendantsOfType node ["export_specifier"]);
            exp_isDefault := textIs (childForFieldName node "default") "default";
            exp_position := getPosition node;
            exp_code := text node |}
  else
    match parentNode node with
    | Some parent =>
        if Js.eqb (type parent) "export_statement" then
          let name :=
            if Js.eqb (type node) "function_declaration" then
              match childForFieldName node "name" with
              | Some nameNode => text nameNode
              | None => EmptyString
              end
            else if Js.eqb (type node) "lexical_declaration" then
              match head (descendantsOfType node ["variable_declarator"]) with
              | Some declarator =>
                  match childForFieldName declarator "name" with
                  | Some nameNode => text nameNode
                  | None => EmptyString
                  end
              | None => EmptyString
              end
            else EmptyString in
          if Js.truthy name then
            Some {| exp_source := None;
                    exp_items := [ {| item_name := name; item_alias := None |} ];
                    exp_isDefault := textIs (childForFieldName parent "default") "default";
                    exp_position := getPosition parent;
                    exp_code := text parent |}
          else None
        else None
    | None => None
    end.

Definition jsExports (rootNode : SyntaxNode) : list ExportRec :=
  omap jsExportOf
    (descendantsOfType rootNode
       ["export_statement"; "lexical_declaration"; "function_declaration"]).

(** ** Python *)

Definition pyFunctionOf (node : SyntaxNode) : FunctionRec :=
  let name :=
    match childForFieldName node "name" with
    | Some nameNode => text nameNode
    | None => "anonymous"
    end in
  let parentFunction :=
    match parentNode node ≫= parentNode with
    | Some parent =>
        if Js.eqb (type parent) "class_definition" then
          text <$> childForFieldName parent "name"
        else None
    | None => None
    end in
  {| fn_name := name; fn_parent := parentFunction;
     fn_position := getPosition node; fn_code := text node |}.

Definition pyFunctions (rootNode : SyntaxNode) : list FunctionRec :=
  map pyFunctionOf (descendantsOfType rootNode ["function_definition"]).

Definition pyVariableOf (node : SyntaxNode) : option VariableRec :=
  let parent := parentNode node in
  if typeIs parent "module"
     || (typeIs parent "block" && typeIs (parent ≫= parentNode) "class_definition")
  then
    match childForFieldName node "left" with
    | Some leftNode =>
        if Js.eqb (type leftNode) "identifier" then
          Some {| var_name := text leftNode; var_kind := "var";
                  var_position := getPosition node; var_code := text node |}
        else None
    | None => None
    end
  else None.

Definition pyVariables (rootNode : SyntaxNode) : list VariableRec :=
  omap pyVariableOf (descendantsOfType rootNode ["assignment"]).

Definition pyMethodOf (methodNode : SyntaxNode) : option MethodRec :=
  match childForFieldName methodNode "name" with
  | Some methodNameNode =>
      let isStatic :=
        match childForFieldName methodNode "decorator_list" with
        | Some decorators =>
            existsb (fun decorator => Js.eqb (text decorator) "@staticmethod")
                    (children decorators)
        | None => false
        end in
      Some {| m_name := text methodNameNode;
              m_position := getPosition methodNode;
              m_isStatic := isStatic;
              m_code := text methodNode |}
  | None => None
  end.

Definition pyClassOf (node : SyntaxNode) : option ClassRec :=
  match childForFieldName node "name" with
  | Some nameNode =>
      Some {| cls_name := text nameNode;
              cls_position := getPosition node;
              cls_methods := omap pyMethodOf (descendantsOfType node ["function_definition"]);
              cls_code := text node |}
  | None => None
  end.

Definition pyClasses (rootNode : SyntaxNode) : list ClassRec :=
  omap pyClassOf (descendantsOfType rootNode ["class_definition"]).

Definition pyFromItemOf (nameNode : SyntaxNode) : option Item :=
  if Js.eqb (type nameNode) "aliased_import" then
    match childForFieldName nameNode "name" with
    | Some n =>
        if Js.truthy (text n) then
          Some {| item_name := text n;
                  item_alias := text <$> childForFieldName nameNode "alias" |}
        else None
    | None => None
    end
  else if Js.eqb (type nameNode) "identifier" then
    Some {| item_name := text nameNode; item_alias := None |}
  else None.

Definition pyImportsOf (node : SyntaxNode) : list ImportRec :=
  if Js.eqb (type node) "import_statement" then
    match childForFieldName node "names" with
    | Some namesNode =>
        map (fun moduleNode =>
               {| imp_source := text moduleNode;
                  imp_items := [ {| item_name := "module";
                                    item_alias := text <$> nextNamedSibling moduleNode |} ];
                  imp_position := getPosition node;
                  imp_code := text node |})
            (descendantsOfType namesNode ["dotted_name"])
    | None => []
    end
  else if Js.eqb (type node) "import_from_statement" then
    match childForFieldName node "module", childForFieldName node "names" with
    | Some moduleNode, Some namesNode =>
        [ {| imp_source := text moduleNode;
             imp_items := omap pyFromItemOf (namedChildren namesNode);
             imp_position := getPosition node;
             imp_code := text node |} ]
    | _, _ => []
    end
  else [].

Definition pyImports (rootNode : SyntaxNode) : list ImportRec :=
  flat_map pyImportsOf
    (descendantsOfType rootNode ["import_statement"; "import_from_statement"]).

(** ** The reduction of a parsed tree *)

(** The body of [extractCodeSymbols] from [rootNode] on: the five lists start
    empty and the branch of the grammar family fills them. *)
Definition extractFromTree (wasmFile : string) (rootNode : SyntaxNode) : FileSymbolTable :=
  if Js.eqb wasmFile "tree-sitter-javascript.wasm" then
    {| functions := jsFunctions rootNode;
       variables := jsVariables rootNode;
       classes := jsClasses rootNode;
       imports := jsImports rootNode;
       exports := jsExports rootNode |}
  else if Js.eqb wasmFile "tree-sitter-python.wasm" then
    {| functions := pyFunctions rootNode;
       variables := pyVariables rootNode;
       classes := pyClasses rootNode;
       imports := pyImports rootNode;
       exports := [] |}
  else
    {| functions := []; variables := []; classes := []; imports := []; exports := [] |}.

(* ================================================================== *)
(** * The [path] module (POSIX flavour) *)
(* ================================================================== *)

Module Path.

Definition notSlash (c : ascii) : bool := negb (Js.isSlash c).
Definition isDot (c : ascii) : bool := if ascii_dec c "." then true else false.
Definition notDot (c : ascii) : bool := negb (isDot c).

Fixpoint takeWhile {A} (f : A -> bool) (l : list A) : list A :=
  match l with
  | [] => []
  | x :: l' => if f x then x :: takeWhile f l' else []
  end.

(** The last portion of a path, trailing separators put aside. *)
Definition lastPortion (p : list ascii) : list ascii :=
  rev (takeWhile notSlash (Js.dropWhile Js.isSlash (rev p))).

(** [path.basename(p)] *)
Definition basename (p : string) : string := Js.str (lastPortion (Js.chars p)).

(** [path.extname(p)]: from the last dot of the last portion to its end; empty
    when there is no dot, when the only dot is the first character of the
    portion, and for the portion made of two dots. *)
Definition extnamel (p : list ascii) : list ascii :=
  let base := lastPortion p in
  let r := rev base in
  let tail := takeWhile notDot r in
  match Js.dropWhile notDot r with
  | [] => []
  | _ :: [] => []
  | _ :: _ :: _ =>
      if Js.eqb (Js.str base) ".." then [] else "."%char :: rev tail
  end.

Definition extname (p : string) : string := Js.str (extnamel (Js.chars p)).

(** A normalized absolute path as the list of its segments. *)
Definition toString (segments : list string) : string :=
  "/" +:+ Js.join "/" segments.

(** [path.join(dir, name)] for a directory entry [name] *)
Definition join (dir : list string) (name : string) : list string := dir ++ [name].

Fixpoint stripCommon (a b : list string) : list string * list string :=
  match a, b with
  | x :: a', y :: b' => if Js.eqb x y then stripCommon a' b' else (a, b)
  | _, _ => (a, b)
  end.

(** [path.relative(from, to)]: one step up for each segment of [from] that
    is not shared, then the rest of [to]. *)
Definition relative (from to : list string) : string :=
  let '(up, down) := stripCommon from to in
  Js.join "/" (map (fun _ => "..") up ++ down).

End Path.

(* ================================================================== *)
(** * Languages and the extractor *)
(* ================================================================== *)

Definition SUPPORTED_LANGUAGES : list (string * string) :=
  [ ("js", "tree-sitter-javascript.wasm");
    ("jsx", "tree-sitter-javascript.wasm");
    ("ts", "tree-sitter-javascript.wasm");
    ("tsx", "tree-sitter-javascript.wasm");
    ("py", "tree-sitter-python.wasm") ].

Fixpoint assoc (k : string) (l : list (string * string)) : option string :=
  match l with
  | [] => None
  | (k', v) :: l' => if Js.eqb k k' then Some v else assoc k l'
  end.

(** [SUPPORTED_LANGUAGES[ext] || null].  For the two lower-case names an
    object literal inherits ([constructor], [__proto__]) the lookup yields a
    value that is no key of [languageInstances]; [None] stands for it too,
    since the only use of the result is that lookup. *)
Definition getLanguageFromExtension (filePath : string) : option string :=
  let ext := Js.toLowerCase (Js.sliceFrom (Path.extname filePath) 1) in
  assoc ext SUPPORTED_LANGUAGES.

(** [ext in SUPPORTED_LANGUAGES]: own keys and inherited property names. *)
Definition inSupportedLanguages (ext : string) : bool :=
  match assoc ext SUPPORTED_LANGUAGES with
  | Some _ => true
  | None => Js.inList ext ["constructor"; "__proto__"]
  end.

Record Error := mkError { message : string }.

(** What a call does: it returns a value or throws. *)
Inductive Outcome (A : Type) : Type :=
| Returns (a : A)
| Throws (e : Error).
Arguments Returns {A} a.
Arguments Throws {A} e.

Section Extractor.

(** A loaded grammar, and the parse step: [new Parser()], [setLanguage],
    [parse] and [rootNode] together.  It yields the root of the tree or
    throws. *)
Variable Grammar : Type.
Variable parse : Grammar -> string -> Error + Node.

(** The module-level state the extractor reads and writes: the [initialized]
    flag, the loaded grammars by file name, and what was written with
    [console.error]. *)
Record Runtime := mkRuntime {
  initialized : bool;
  languageInstances : gmap string Grammar;
  console : list string }.

(** [initializeTreeSitter] loads grammars from disk and may download them; it
    is taken as given.  It may throw, and it leaves a runtime behind. *)
Variable initializeTreeSitter : Runtime -> option Error * Runtime.

Definition logError (rt : Runtime) (line : string) : Runtime :=
  {| initialized := initialized rt;
     languageInstances := languageInstances rt;
     console := console rt ++ [line] |}.

(** The [try] block of [extractCodeSymbols] with its [catch]. *)
Definition extractCodeSymbols_try (rt : Runtime) (filePath fileContent : string)
    : option FileSymbolTable * Runtime :=
  match getLanguageFromExtension filePath with
  | None => (None, rt)
  | Some wasmFile =>
      match languageInstances rt !! wasmFile with
      | None => (None, rt)
      | Some language =>
          match parse language fileContent with
          | inr tree => (Some (extractFromTree wasmFile (rootOf tree)), rt)
          | inl error =>
              (None, logError rt ("Error parsing " +:+ filePath +:+ ": " +:+ message error))
          end
      end
  end.

Definition extractCodeSymbols (rt : Runtime) (filePath fileContent : string)
    : Outcome (option FileSymbolTable) * Runtime :=
  if initialized rt then
    let '(r, rt') := extractCodeSymbols_try rt filePath fileContent in (Returns r, rt')
  else
    match initializeTreeSitter rt with
    | (Some e, rt') => (Throws e, rt')
    | (None, rt') =>
        let '(r, rt'') := extractCodeSymbols_try rt' filePath fileContent in (Returns r, rt'')
    end.

End Extractor.

Arguments mkRuntime {Grammar}.
Arguments initialized {Grammar}.
Arguments languageInstances {Grammar}.
Arguments console {Grammar}.
Arguments logError {Grammar}.
Arguments extractCodeSymbols_try {Grammar}.
Arguments extractCodeSymbols {Grammar}.

(* ================================================================== *)
(** * Regular expressions *)
(* ================================================================== *)

(** [new RegExp(pattern)] without flags and [regex.test(s)], for the fragment
    of the pattern language that the compiled ignore rules, the default
    rules and the file patterns live in: characters, escapes, the dot,
    character classes, groups, alternation, the anchors and the greedy or
    lazy quantifiers star, plus and question mark. *)

Module RegExp.

Inductive ClassItem :=
| CChar (c : ascii)
| CRange (lo hi : ascii)
| CDigit
| CWord
| CSpace.

Inductive Re :=
| Empty
| Chr (c : ascii)
| Any
| Class (negated : bool) (items : list ClassItem)
| Bol
| Eol
| Seq (a b : Re)
| Alt (a b : Re)
| Star (a : Re)
| Opt (a : Re).

(** ** Matching *)

Definition isLineTerminator (c : ascii) : bool :=
  let n := nat_of_ascii c in (n =? 10) || (n =? 13).

Definition isDigit (c : ascii) : bool :=
  let n := nat_of_ascii c in (48 <=? n) && (n <=? 57).

Definition isWord (c : ascii) : bool :=
  let n := nat_of_ascii c in
  isDigit c || ((65 <=? n) && (n <=? 90)) || ((97 <=? n) && (n <=? 122)) || (n =? 95).

Definition inItem (c : ascii) (i : ClassItem) : bool :=
  match i with
  | CChar x => if ascii_dec c x then true else false
  | CRange lo hi => (nat_of_ascii lo <=? nat_of_ascii c) && (nat_of_ascii c <=? nat_of_ascii hi)
  | CDigit => isDigit c
  | CWord => isWord c
  | CSpace => Js.isSpace c
  end.

Definition inClass (negated : bool) (items : list ClassItem) (c : ascii) : bool :=
  xorb negated (existsb (inItem c) items).

(** [accepts r pos s k]: [r] matches a prefix of [s], which starts at index
    [pos] of the input, and [k] accepts what follows.  The start anchor holds
    at index 0 only and the end anchor at the end of the input only (no
    multiline flag).  An iteration of a star has to consume input. *)
Fixpoint accepts (r : Re) (pos : nat) (s : list ascii) (k : nat -> list ascii -> bool)
    {struct r} : bool :=
  match r with
  | Empty => k pos s
  | Chr c =>
      match s with
      | x :: s' => if ascii_dec x c then k (S pos) s' else false
      | [] => false
      end
  | Any =>
      match s with
      | x :: s' => if isLineTerminator x then false else k (S pos) s'
      | [] => false
      end
  | Class negated items =>
      match s with
      | x :: s' => if inClass negated items x then k (S pos) s' else false
      | [] => false
      end
  | Bol => if pos =? 0 then k pos s else false
  | Eol => match s with [] => k pos s | _ :: _ => false end
  | Seq a b => accepts a pos s (fun pos' s' => accepts b pos' s' k)
  | Alt a b => accepts a pos s k || accepts b pos s k
  | Star a =>
      (fix loop (fuel : nat) (pos : nat) (s : list ascii) {struct fuel} : bool :=
         match fuel with
         | O => k pos s
         | S fuel' =>
             accepts a pos s
               (fun pos' s' =>
                  if List.length s' <? List.length s then loop fuel' pos' s' else false)
             || k pos s
         end) (List.length s) pos s
  | Opt a => accepts a pos s k || k pos s
  end.

(** A match may start at any index. *)
Fixpoint searchFrom (r : Re) (pos : nat) (s : list ascii) : bool :=
  accepts r pos s (fun _ _ => true)
  || match s with
     | [] => false
     | _ :: s' => searchFrom r (S pos) s'
     end.

(** ** Compiling a pattern *)

Inductive Quantifiable := Fresh | Quantified | Lazy | Anchor.

Record Frame := mkFrame {
  alts : list Re;
  atoms : list (Re * Quantifiable) }.

Inductive Mode :=
| Normal
| Escape
| GroupOpen
| GroupQuestion
| ClassOpen
| InClass (negated : bool) (items : list ClassItem)
| ClassEscape (negated : bool) (items : list ClassItem)
| ClassDash (negated : bool) (items : list ClassItem) (lo : ascii).

Record PState := mkPState { stack : list Frame; mode : Mode }.

Definition seqOf (l : list Re) : Re := fold_right Seq Empty l.

Fixpoint altOf (l : list Re) : Re :=
  match l with
  | [] => Empty
  | [r] => r
  | r :: l' => Alt r (altOf l')
  end.

Definition frameSeq (f : Frame) : Re := seqOf (rev (map fst (atoms f))).
Definition frameRe (f : Frame) : Re := altOf (alts f ++ [frameSeq f]).

Definition pushAtom (st : list Frame) (r : Re) (q : Quantifiable) : option PState :=
  match st with
  | f :: rest => Some (mkPState (mkFrame (alts f) ((r, q) :: atoms f) :: rest) Normal)
  | [] => None
  end.

Definition isPunct (c : ascii) : bool :=
  let n := nat_of_ascii c in (n <? 128) && negb (isWord c).

(** The atom an escape stands for outside a class. *)
Definition escapeAtom (c : ascii) : option Re :=
  if isPunct c then Some (Chr c)
  else if ascii_dec c "d" then Some (Class false [CDigit])
  else if ascii_dec c "D" then Some (Class true [CDigit])
  else if ascii_dec c "w" then Some (Class false [CWord])
  else if ascii_dec c "W" then Some (Class true [CWord])
  else if ascii_dec c "s" then Some (Class false [CSpace])
  else if ascii_dec c "S" then Some (Class true [CSpace])
  else if ascii_dec c "n" then Some (Chr (ascii_of_nat 10))
  else if ascii_dec c "r" then Some (Chr (ascii_of_nat 13))
  else if ascii_dec c "t" then Some (Chr (ascii_of_nat 9))
  else None.

(** The item an escape stands for inside a class. *)
Definition escapeItem (c : ascii) : option ClassItem :=
  if isPunct c then Some (CChar c)
  else if ascii_dec c "d" then Some CDigit
  else if ascii_dec c "w" then Some CWord
  else if ascii_dec c "s" then Some CSpace
  else if ascii_dec c "n" then Some (CChar (ascii_of_nat 10))
  else if ascii_dec c "r" then Some (CChar (ascii_of_nat 13))
  else if ascii_dec c "t" then Some (CChar (ascii_of_nat 9))
  else None.

Definition quantify (st : list Frame) (c : ascii) : option PState :=
  match st with
  | mkFrame al ((r, q) :: rest) :: outer =>
      let put r' q' := Some (mkPState (mkFrame al ((r', q') :: rest) :: outer) Normal) in
      match q with
      | Fresh =>
          if ascii_dec c "*" then put (Star r) Quantified
          else if ascii_dec c "+" then put (Seq r (Star r)) Quantified
          else put (Opt r) Quantified
      | Quantified => if ascii_dec c "?" then put r Lazy else None
      | Lazy => None
      | Anchor => None
      end
  | _ => None
  end.

Definition stepNormal (st : list Frame) (c : ascii) : option PState :=
  if ascii_dec c "\" then Some (mkPState st Escape)
  else if ascii_dec c "(" then Some (mkPState (mkFrame [] [] :: st) GroupOpen)
  else if ascii_dec c ")" then
    match st with
    | f :: outer :: rest => pushAtom (outer :: rest) (frameRe f) Fresh
    | _ => None
    end
  else if ascii_dec c "|" then
    match st with
    | f :: rest => Some (mkPState (mkFrame (alts f ++ [frameSeq f]) [] :: rest) Normal)
    | [] => None
    end
  else if ascii_dec c "[" then Some (mkPState st ClassOpen)
  else if ascii_dec c "." then pushAtom st Any Fresh
  else if ascii_dec c "^" then pushAtom st Bol Anchor
  else if ascii_dec c "$" then pushAtom st Eol Anchor
  else if ascii_dec c "*" then quantify st c
  else if ascii_dec c "+" then quantify st c
  else if ascii_dec c "?" then quantify st c
  else if ascii_dec c "{" then None
  else if ascii_dec c "}" then None
  else pushAtom st (Chr c) Fresh.

Definition stepClass (st : list Frame) (negated : bool) (items : list ClassItem) (c : ascii)
    : option PState :=
  if ascii_dec c "]" then pushAtom st (Class negated (rev items)) Fresh
  else if ascii_dec c "\" then Some (mkPState st (ClassEscape negated items))
  else if ascii_dec c "-" then
    match items with
    | CChar lo :: items' => Some (mkPState st (ClassDash negated items' lo))
    | _ => Some (mkPState st (InClass negated (CChar c :: items)))
    end
  else Some (mkPState st (InClass negated (CChar c :: items))).

Definition step (ps : PState) (c : ascii) : option PState :=
  let st := stack ps in
  match mode ps with
  | Normal => stepNormal st c
  | Escape =>
      match escapeAtom c with
      | Some r => pushAtom st r Fresh
      | None => None
      end
  | GroupOpen =>
      if ascii_dec c "?" then Some (mkPState st GroupQuestion) else stepNormal st c
  | GroupQuestion =>
      if ascii_dec c ":" then Some (mkPState st Normal) else None
  | ClassOpen =>
      if ascii_dec c "^" then Some (mkPState st (InClass true []))
      else stepClass st false [] c
  | InClass negated items => stepClass st negated items c
  | ClassEscape negated items =>
      match escapeItem c with
      | Some i => Some (mkPState st (InClass negated (i :: items)))
      | None => None
      end
  | ClassDash negated items lo =>
      if ascii_dec c "]" then
        pushAtom st (Class negated (rev (CChar "-" :: CChar lo :: items))) Fresh
      else if ascii_dec c "\" then None
      else if nat_of_ascii lo <=? nat_of_ascii c then
        Some (mkPState st (InClass negated (CRange lo c :: items)))
      else None
  end.

Fixpoint run (ps : PState) (l : list ascii) : option PState :=
  match l with
  | [] => Some ps
  | c :: l' =>
      match step ps c with
      | Some ps' => run ps' l'
      | None => None
      end
  end.

Definition start : PState := mkPState [mkFrame [] []] Normal.

Definition finish (ps : PState) : option Re :=
  match mode ps, stack ps with
  | Normal, [f] => Some (frameRe f)
  | GroupOpen, _ => None
  | _, _ => None
  end.

(** [new RegExp(pattern)].  [None]: the pattern is refused, by the engine
    with a [SyntaxError], or because it leaves the fragment above (counted
    repetition, look-around, back-references, word boundaries, control and
    Unicode escapes). *)
Definition compile (pattern : string) : option Re :=
  run start (Js.chars pattern) ≫= finish.

(** [regex.test(s)] *)
Definition test (r : Re) (s : string) : bool := searchFrom r 0 (Js.chars s).

End RegExp.

(* ================================================================== *)
(** * The pattern compiler and the file classifier *)
(* ================================================================== *)

(** The message of the [SyntaxError] thrown for a refused pattern; what the
    engine adds after the pattern is left out. *)
Definition invalidRegExp (pattern : string) : Error :=
  mkError ("Invalid regular expression: /" +:+ pattern +:+ "/").

(** The callback given to the last [map] of [parseGitignore]: one line of an
    ignore file to the source of one regular expression. *)
Definition compilePattern (pattern : string) : string :=
  if Js.eqb pattern "node_modules" || Js.eqb pattern "node_modules/" then
    "^node_modules($|/)"
  else
    let processedPattern := Js.stripTrailingSlashes pattern in
    let hasLeadingSlash := Js.startsWith processedPattern "/" in
    let processedPattern :=
      if hasLeadingSlash then Js.sliceFrom processedPattern 1 else processedPattern in
    let processedPattern := Js.replaceAll processedPattern "." "\." in
    let processedPattern := Js.replaceAll processedPattern "**" "__DOUBLE_STAR__" in
    let processedPattern := Js.replaceAll processedPattern "*" "[^/]*" in
    let processedPattern := Js.replaceAll processedPattern "__DOUBLE_STAR__" ".*" in
    let processedPattern := Js.replaceAll processedPattern "?" "[^/]" in
    let processedPattern := Js.replaceAll processedPattern "/" "\/" in
    if hasLeadingSlash then "^" +:+ processedPattern +:+ "($|/.*)"
    else "(^|.*/|^/)" +:+ processedPattern +:+ "($|/.*)".

(** The lines of an ignore file that carry a pattern. *)
Definition ignoreLines (content : string) : list string :=
  List.filter (fun line => Js.truthy line && negb (Js.startsWith line "#"))
              (map Js.trim (Js.split content (ascii_of_nat 10))).

(** [parseGitignore] on the content of the file at [gitignorePath]; [None]
    when there is no such file. *)
Definition parseGitignore (content : option string) : list string :=
  match content with
  | None => []
  | Some content => map compilePattern (ignoreLines content)
  end.

(** [ignorePatterns.some(...)]: the patterns in order, each compiled when its
    turn comes, stopping at the first that matches. *)
Fixpoint someIgnores (ignorePatterns : list string) (pathToCheck itemName : string)
    : Outcome bool :=
  match ignorePatterns with
  | [] => Returns false
  | pattern :: rest =>
      match RegExp.compile pattern with
      | None => Throws (invalidRegExp pattern)
      | Some regex =>
          if RegExp.test regex pathToCheck || RegExp.test regex itemName then Returns true
          else someIgnores rest pathToCheck itemName
      end
  end.

(** [shouldIgnore(itemPath, ignorePatterns, rootPath)].  Paths are lists of
    segments; [isDirectory] is what [fs.statSync(itemPath).isDirectory()]
    answers. *)
Definition shouldIgnore (itemPath : list string) (isDirectory : bool)
    (ignorePatterns : list string) (rootPath : list string) : Outcome bool :=
  match ignorePatterns with
  | [] => Returns false
  | _ :: _ =>
      let relativePath := Js.replaceAll (Path.relative rootPath itemPath) "\" "/" in
      let pathToCheck := if isDirectory then relativePath +:+ "/" else relativePath in
      let itemName := List.last itemPath EmptyString in
      someIgnores ignorePatterns pathToCheck itemName
  end.

(** The callback of [customPatterns.some] in [isSupportedFile]. *)
Definition matchesPattern (filePath fileName pattern : string) : Outcome bool :=
  if Js.includes pattern "*" then
    let regexPattern := Js.replaceAll (Js.replaceAll pattern "." "\.") "*" ".*" in
    match RegExp.compile ("^" +:+ regexPattern +:+ "$") with
    | None => Throws (invalidRegExp ("^" +:+ regexPattern +:+ "$"))
    | Some regex => Returns (RegExp.test regex fileName)
    end
  else if Js.startsWith pattern "." then Returns (Js.endsWith filePath pattern)
  else
    Returns (Js.eqb (Js.toLowerCase (Js.sliceFrom (Path.extname filePath) 1))
                    (Js.toLowerCase pattern)).

Fixpoint somePattern (filePath fileName : string) (customPatterns : list string)
    : Outcome bool :=
  match customPatterns with
  | [] => Returns false
  | pattern :: rest =>
      match matchesPattern filePath fileName pattern with
      | Throws e => Throws e
      | Returns true => Returns true
      | Returns false => somePattern filePath fileName rest
      end
  end.

(** [isSupportedFile(filePath, customPatterns)]; [None] is [null]. *)
Definition isSupportedFile (filePath : string) (customPatterns : option (list string))
    : Outcome bool :=
  match customPatterns with
  | Some (p :: ps) => somePattern filePath (Path.basename filePath) (p :: ps)
  | _ =>
      let ext := Js.toLowerCase (Js.sliceFrom (Path.extname filePath) 1) in
      Returns (inSupportedLanguages ext)
  end.

(* ================================================================== *)
(** * Rendering the analysis of one file *)
(* ================================================================== *)

Definition nl : string := String (ascii_of_nat 10) EmptyString.

Definition at_ (p : Position) : string :=
  " [" +:+ Js.ofNat (startLine p) +:+ ":" +:+ Js.ofNat (startCol p) +:+ "]".

Definition summaryLine (childIndent : string) (symbols : FileSymbolTable) : string :=
  childIndent +:+ "└── [Analyzed: " +:+ Js.ofNat (length (functions symbols))
  +:+ " functions, " +:+ Js.ofNat (length (variables symbols))
  +:+ " variables, " +:+ Js.ofNat (length (classes symbols)) +:+ " classes]" +:+ nl.

(** [symbolType === kind || symbolType === 'all'] *)
Definition wants (symbolType kind : string) : bool :=
  Js.eqb symbolType kind || Js.eqb symbolType "all".

(** The records the functions listing shows. *)
Definition fileFunctions (symbols : FileSymbolTable) : list FunctionRec :=
  List.filter (fun fn => negb (Js.eqb (fn_name fn) "anonymous")) (functions symbols).

Definition functionLine (childIndent : string) (fn : FunctionRec) : string :=
  childIndent +:+ "    - " +:+ fn_name fn
  +:+ match fn_parent fn with
      | Some p => if Js.truthy p then " (in " +:+ p +:+ ")" else EmptyString
      | None => EmptyString
      end
  +:+ at_ (fn_position fn).

Definition functionsListing (childIndent symbolType : string) (symbols : FileSymbolTable)
    : string :=
  if wants symbolType "functions" && (0 <? length (functions symbols)) then
    match fileFunctions symbols with
    | [] => EmptyString
    | shown =>
        childIndent +:+ "    Functions:" +:+ nl
        +:+ Js.join nl (map (functionLine childIndent) shown) +:+ nl
    end
  else EmptyString.

Definition variablesListing (childIndent symbolType : string) (symbols : FileSymbolTable)
    : string :=
  if wants symbolType "variables" && (0 <? length (variables symbols)) then
    childIndent +:+ "    Variables:" +:+ nl
    +:+ Js.join nl
          (map (fun v => childIndent +:+ "    - " +:+ var_kind v +:+ " " +:+ var_name v
                         +:+ at_ (var_position v))
               (variables symbols))
    +:+ nl
  else EmptyString.

Definition classInfo (childIndent : string) (c : ClassRec) : string :=
  childIndent +:+ "    - " +:+ cls_name c +:+ at_ (cls_position c)
  +:+ match cls_methods c with
      | [] => EmptyString
      | ms =>
          nl +:+ childIndent +:+ "      Methods:" +:+ nl
          +:+ Js.join nl
                (map (fun m => childIndent +:+ "      - "
                               +:+ (if m_isStatic m then "static " else EmptyString)
                               +:+ m_name m +:+ at_ (m_position m))
                     ms)
      end.

Definition classesListing (childIndent symbolType : string) (symbols : FileSymbolTable)
    : string :=
  if wants symbolType "classes" && (0 <? length (classes symbols)) then
    childIndent +:+ "    Classes:" +:+ nl
    +:+ Js.join nl (map (classInfo childIndent) (classes symbols)) +:+ nl
  else EmptyString.

Definition itemText (item : Item) : string :=
  item_name item
  +:+ match item_alias item with
      | Some a => if Js.truthy a then " as " +:+ a else EmptyString
      | None => EmptyString
      end.

Definition itemsText (items : list Item) : string :=
  match items with
  | [] => EmptyString
  | _ => ": " +:+ Js.join ", " (map itemText items)
  end.

Definition importsListing (childIndent symbolType : string) (symbols : FileSymbolTable)
    : string :=
  if wants symbolType "imports" && (0 <? length (imports symbols)) then
    childIndent +:+ "    Imports:" +:+ nl
    +:+ Js.join nl
          (map (fun imp => childIndent +:+ "    - from '" +:+ imp_source imp +:+ "'"
                           +:+ itemsText (imp_items imp))
               (imports symbols))
    +:+ nl
  else EmptyString.

Definition exportsListing (childIndent symbolType : string) (symbols : FileSymbolTable)
    : string :=
  if wants symbolType "exports" && (0 <? length (exports symbols)) then
    childIndent +:+ "    Exports:" +:+ nl
    +:+ Js.join nl
          (map (fun exp => childIndent +:+ "    - "
                           +:+ (if exp_isDefault exp then "default export" else "export")
                           +:+ match exp_source exp with
                               | Some src =>
                                   if Js.truthy src then " from '" +:+ src +:+ "'"
                                   else EmptyString
                               | None => EmptyString
                               end
                           +:+ itemsText (exp_items exp))
               (exports symbols))
    +:+ nl
  else EmptyString.

(** What [includeSymbols] adds below the summary line. *)
Definition symbolListing (childIndent symbolType : string) (symbols : FileSymbolTable)
    : string :=
  functionsListing childIndent symbolType symbols
  +:+ variablesListing childIndent symbolType symbols
  +:+ classesListing childIndent symbolType symbols
  +:+ importsListing childIndent symbolType symbols
  +:+ exportsListing childIndent symbolType symbols.

(* ================================================================== *)
(** * The directory walker *)
(* ================================================================== *)

(** What the file system holds at a path: a file with its size in bytes and
    its content, or a directory with its entries in enumeration order. *)
#[local] Unset Elimination Schemes.
Inductive FsNode :=
| File (size : nat) (content : string)
| Dir (items : list (string * FsNode)).
#[local] Set Elimination Schemes.

Definition isDirectory (n : FsNode) : bool :=
  match n with Dir _ => true | File _ _ => false end.

(** The global store [codeSymbols]. *)
Record CodeSymbols := mkCodeSymbols {
  cs_functions : gmap string (list FunctionRec);
  cs_variables : gmap string (list VariableRec);
  cs_classes : gmap string (list ClassRec);
  cs_imports : gmap string (list ImportRec);
  cs_exports : gmap string (list ExportRec);
  cs_files : gset string }.

Definition emptyCodeSymbols : CodeSymbols :=
  mkCodeSymbols ∅ ∅ ∅ ∅ ∅ ∅.

Definition storeSymbols (cs : CodeSymbols) (itemPath : string) (symbols : FileSymbolTable)
    : CodeSymbols :=
  {| cs_functions := <[itemPath := functions symbols]> (cs_functions cs);
     cs_variables := <[itemPath := variables symbols]> (cs_variables cs);
     cs_classes := <[itemPath := classes symbols]> (cs_classes cs);
     cs_imports := <[itemPath := imports symbols]> (cs_imports cs);
     cs_exports := <[itemPath := exports symbols]> (cs_exports cs);
     cs_files := {[itemPath]} ∪ cs_files cs |}.

(** A piece appended to [output]: the line of an entry, the summary line of
    an analyzed file, its symbol listing, or the note that stands for a
    directory whose processing failed.  The text returned is the
    concatenation of the pieces. *)
Inductive Chunk :=
| EntryLine (line : string)
| Summary (line : string)
| Listing (lines : string)
| Failure (line : string).

Definition chunkText (c : Chunk) : string :=
  match c with
  | EntryLine s | Summary s | Listing s | Failure s => s
  end.

Definition render (output : list Chunk) : string :=
  fold_right String.append EmptyString (map chunkText output).

Definition defaultIgnorePatterns : list string :=
  [ "^node_modules($|/)";
    "^.git($|/)";
    "\.log$";
    "\.tmp$";
    "\.temp$";
    "\.swp$";
    "\.DS_Store$";
    "\.vscode($|/)";
    "\.idea($|/)";
    "\.vs($|/)";
    "^dist($|/)";
    "^build($|/)";
    "^coverage($|/)" ].

Fixpoint lookupItem (name : string) (items : list (string * FsNode)) : option FsNode :=
  match items with
  | [] => None
  | (n, x) :: rest => if Js.eqb n name then Some x else lookupItem name rest
  end.

Section Walker.

Variable Grammar : Type.
Variable parse : Grammar -> string -> Error + Node.
Variable initializeTreeSitter : Runtime Grammar -> option Error * Runtime Grammar.

(** The state a walk threads: the extractor's runtime and the store. *)
Record World := mkWorld {
  runtime : Runtime Grammar;
  codeSymbols : CodeSymbols }.

Definition logged (w : World) (line : string) : World :=
  mkWorld (logError (runtime w) line) (codeSymbols w).

(** The ignore file of a directory, read by [parseGitignore].  A directory
    of that name cannot be read as a file: the error is logged there and no
    pattern comes back. *)
Definition ownIgnorePatterns (items : list (string * FsNode)) (w : World)
    : list string * World :=
  match lookupItem ".gitignore" items with
  | None => ([], w)
  | Some (File _ content) => (parseGitignore (Some content), w)
  | Some (Dir _) =>
      ([], logged w "Error parsing .gitignore: EISDIR: illegal operation on a directory, read")
  end.

(** The [catch] of the whole body of [getDirectoryTree]. *)
Definition failed (dirPath : list string) (indent : string) (e : Error) (w : World)
    : list Chunk * World :=
  ([Failure (indent +:+ "Error: " +:+ message e +:+ nl)],
   logged w ("Error processing directory " +:+ Path.toString dirPath +:+ ": " +:+ message e)).

(** The analysis of one file, from [readFileSync] to the end of the inner
    [try], with its [catch]. *)
Definition analyzeFile (itemPath content childIndent : string)
    (includeSymbols : bool) (symbolType : string) (w : World) : list Chunk * World :=
  match extractCodeSymbols parse initializeTreeSitter (runtime w) itemPath content with
  | (Throws error, rt) =>
      ([], logged (mkWorld rt (codeSymbols w))
                  ("Error analyzing " +:+ itemPath +:+ ": " +:+ message error))
  | (Returns None, rt) => ([], mkWorld rt (codeSymbols w))
  | (Returns (Some symbols), rt) =>
      (Summary (summaryLine childIndent symbols)
       :: (if includeSymbols then [Listing (symbolListing childIndent symbolType symbols)]
           else []),
       mkWorld rt (storeSymbols (codeSymbols w) itemPath symbols))
  end.

Section Loop.

(** What stays the same through a walk, and the directory at hand. *)
Variables (rootPath : list string) (filePatterns : option (list string))
          (includeSymbols : bool) (symbolType : string) (maxDepth : Z).
Variables (dirPath : list string) (allIgnorePatterns : list string) (indent : string)
          (analyzeJs : bool) (currentDepth : nat) (count : nat).

(** The recursive call for a subdirectory: the directory, its path, the
    indentation below it and whether to analyze there. *)
Variable recur : FsNode -> list string -> string -> bool -> World -> list Chunk * World.

(** The [for] loop over [items], from index [i] on; [count] is
    [items.length]. *)
Fixpoint eachItem (rest : list (string * FsNode)) (i : nat) (output : list Chunk) (w : World)
    {struct rest} : list Chunk * World :=
  match rest with
  | [] => (output, w)
  | (itemName, item) :: rest' =>
      let itemPath := Path.join dirPath itemName in
      if Js.eqb itemName ".gitignore" then eachItem rest' (S i) output w
      else if Js.startsWith itemName "." then eachItem rest' (S i) output w
      else
        match shouldIgnore itemPath (isDirectory item) allIgnorePatterns rootPath with
        | Throws e => failed dirPath indent e w
        | Returns true => eachItem rest' (S i) output w
        | Returns false =>
            let isLast := i =? count - 1 in
            let prefix := if isLast then "└── " else "├── " in
            let childIndent := indent +:+ (if isLast then "    " else "│   ") in
            match item with
            | Dir _ =>
                let shouldAnalyze := analyzeJs && (Z.of_nat currentDepth <? maxDepth)%Z in
                let '(sub, w) := recur item itemPath childIndent shouldAnalyze w in
                eachItem rest' (S i)
                  (output ++ EntryLine (indent +:+ prefix +:+ itemName +:+ "/" +:+ nl) :: sub) w
            | File size content =>
                let sizeInKB := (size + 1023) / 1024 in
                let output :=
                  output ++ [EntryLine (indent +:+ prefix +:+ itemName +:+ " ("
                                        +:+ Js.ofNat sizeInKB +:+ " KB)" +:+ nl)] in
                if analyzeJs && (Z.of_nat currentDepth <=? maxDepth)%Z then
                  match isSupportedFile (Path.toString itemPath) filePatterns with
                  | Throws e => failed dirPath indent e w
                  | Returns false => eachItem rest' (S i) output w
                  | Returns true =>
                      let '(found, w) :=
                        analyzeFile (Path.toString itemPath) content childIndent
                          includeSymbols symbolType w in
                      eachItem rest' (S i) (output ++ found) w
                  end
                else eachItem rest' (S i) output w
            end
        end
  end.

End Loop.

(** [getDirectoryTree] on an existing [dirPath]; [target] is what the file
    system holds there.  [maxDepth], a number in the source, is an integer
    here.  The result is the list of the pieces appended to [output], whose
    concatenation ([render]) is the text returned, and the state left. *)
Fixpoint getDirectoryTree (target : FsNode) (dirPath rootPath : list string)
    (ignorePatterns : list string) (filePatterns : option (list string))
    (indent : string) (analyzeJs includeSymbols : bool) (symbolType : string)
    (currentDepth : nat) (maxDepth : Z) (w : World) {struct target}
    : list Chunk * World :=
  match target with
  | File _ _ =>
      failed dirPath indent
        (mkError ("ENOTDIR: not a directory, scandir '" +:+ Path.toString dirPath +:+ "'")) w
  | Dir items =>
      let '(newPatterns, w) := ownIgnorePatterns items w in
      let allIgnorePatterns := defaultIgnorePatterns ++ ignorePatterns ++ newPatterns in
      eachItem rootPath filePatterns includeSymbols symbolType maxDepth
        dirPath allIgnorePatterns indent analyzeJs currentDepth (length items)
        (fun item itemPath childIndent shouldAnalyze w =>
           getDirectoryTree item itemPath rootPath allIgnorePatterns filePatterns
             childIndent shouldAnalyze includeSymbols symbolType (currentDepth + 1) maxDepth w)
        items 0 [] w
  end.

(** [getDirectoryTree] from the existence test on: [None] when nothing is at
    [dirPath]. *)
Definition getDirectoryTreeAt (target : option FsNode) (dirPath rootPath : list string)
    (ignorePatterns : list string) (filePatterns : option (list string))
    (indent : string) (analyzeJs includeSymbols : bool) (symbolType : string)
    (currentDepth : nat) (maxDepth : Z) (w : World) : list Chunk * World :=
  match target with
  | None => ([Failure (indent +:+ "Path does not exist: " +:+ Path.toString dirPath)], w)
  | Some t =>
      getDirectoryTree t dirPath rootPath ignorePatterns filePatterns indent analyzeJs
        includeSymbols symbolType currentDepth maxDepth w
  end.

End Walker.

Arguments mkWorld {Grammar}.
Arguments runtime {Grammar}.
Arguments codeSymbols {Grammar}.
Arguments logged {Grammar}.
Arguments failed {Grammar}.
Arguments ownIgnorePatterns {Grammar}.
Arguments analyzeFile {Grammar}.
Arguments eachItem {Grammar}.
Arguments getDirectoryTree {Grammar}.
Arguments getDirectoryTreeAt {Grammar}.

(* ================================================================== *)
(** * The result aggregator *)
(* ================================================================== *)

(** [Object.values(codeSymbols.functions).reduce((sum, arr) => sum + arr.length, 0)] *)
Definition totalFunctions (cs : CodeSymbols) : nat :=
  map_fold (fun _ arr sum => sum + length arr) 0 (cs_functions cs).

(* ================================================================== *)
(** * Sample inputs *)
(* ================================================================== *)

(** Trees as the JavaScript and Python grammars produce them for small
    sources, and a parse step that knows these sources. *)

Definition token (t : string) (r1 c1 r2 c2 : nat) : Child :=
  (None, mkNode t false t (mkPoint r1 c1) (mkPoint r2 c2) []).

Definition named (t txt : string) (r1 c1 r2 c2 : nat) (cs : list Child) : Node :=
  mkNode t true txt (mkPoint r1 c1) (mkPoint r2 c2) cs.

(** Scenario B: one line, a short arrow function bound to [f]. *)
Definition scenarioB_source : string := "const f = () => 1;".

Definition scenarioB_arrow : Node :=
  named "arrow_function" "() => 1" 0 10 0 17
    [ (Some "parameters",
       named "formal_parameters" "()" 0 10 0 12 [token "(" 0 10 0 11; token ")" 0 11 0 12]);
      token "=>" 0 13 0 15;
      (Some "body", named "number" "1" 0 16 0 17 []) ].

Definition scenarioB_declarator : Node :=
  named "variable_declarator" "f = () => 1" 0 6 0 17
    [ (Some "name", named "identifier" "f" 0 6 0 7 []);
      token "=" 0 8 0 9;
      (Some "value", scenarioB_arrow) ].

Definition scenarioB_declaration : Node :=
  named "lexical_declaration" scenarioB_source 0 0 0 18
    [ (Some "kind", snd (token "const" 0 0 0 5));
      (None, scenarioB_declarator);
      token ";" 0 17 0 18 ].

Definition scenarioB_tree : Node :=
  named "program" scenarioB_source 0 0 0 18 [ (None, scenarioB_declaration) ].

(** The arrow function of scenario B as the extractor meets it. *)
Definition scenarioB_arrowNode : SyntaxNode :=
  mkSyntaxNode scenarioB_arrow []
    [ (scenarioB_declarator, [token ";" 0 17 0 18]);
      (scenarioB_declaration, []);
      (scenarioB_tree, []) ].

(** A class with one method whose name is the word the extractor uses for
    functions without a name. *)
Definition methodAnonymous_source : string := "class A { anonymous() {} }".

Definition methodAnonymous_method : Node :=
  named "method_definition" "anonymous() {}" 0 10 0 24
    [ (Some "name", named "property_identifier" "anonymous" 0 10 0 19 []);
      (Some "parameters",
       named "formal_parameters" "()" 0 19 0 21 [token "(" 0 19 0 20; token ")" 0 20 0 21]);
      (Some "body",
       named "statement_block" "{}" 0 22 0 24 [token "{" 0 22 0 23; token "}" 0 23 0 24]) ].

Definition methodAnonymous_tree : Node :=
  named "program" methodAnonymous_source 0 0 0 26
    [ (None,
       named "class_declaration" methodAnonymous_source 0 0 0 26
         [ token "class" 0 0 0 5;
           (Some "name", named "identifier" "A" 0 6 0 7 []);
           (Some "body",
            named "class_body" "{ anonymous() {} }" 0 8 0 26
              [ token "{" 0 8 0 9;
                (Some "member", methodAnonymous_method);
                token "}" 0 25 0 26 ]) ]) ].

(** The same class with the method called [run]. *)
Definition methodRun_source : string := "class A { run() {} }".

Definition methodRun_tree : Node :=
  named "program" methodRun_source 0 0 0 20
    [ (None,
       named "class_declaration" methodRun_source 0 0 0 20
         [ token "class" 0 0 0 5;
           (Some "name", named "identifier" "A" 0 6 0 7 []);
           (Some "body",
            named "class_body" "{ run() {} }" 0 8 0 20
              [ token "{" 0 8 0 9;
                (Some "member",
                 named "method_definition" "run() {}" 0 10 0 18
                   [ (Some "name", named "property_identifier" "run" 0 10 0 13 []);
                     (Some "parameters",
                      named "formal_parameters" "()" 0 13 0 15
                        [token "(" 0 13 0 14; token ")" 0 14 0 15]);
                     (Some "body",
                      named "statement_block" "{}" 0 16 0 18
                        [token "{" 0 16 0 17; token "}" 0 17 0 18]) ]);
                token "}" 0 19 0 20 ]) ]) ].

(** A Python module of thirteen characters: one definition. *)
Definition pyDef_source : string := "def f(): pass".

Definition pyDef_tree : Node :=
  named "module" pyDef_source 0 0 0 13
    [ (None,
       named "function_definition" pyDef_source 0 0 0 13
         [ token "def" 0 0 0 3;
           (Some "name", named "identifier" "f" 0 4 0 5 []);
           (Some "parameters",
            named "parameters" "()" 0 5 0 7 [token "(" 0 5 0 6; token ")" 0 6 0 7]);
           token ":" 0 7 0 8;
           (Some "body",
            named "block" "pass" 0 9 0 13
              [ (None, named "pass_statement" "pass" 0 9 0 13 [token "pass" 0 9 0 13]) ]) ]) ].

(** The definition as the extractor meets it. *)
Definition pyDef_node : SyntaxNode :=
  mkSyntaxNode (snd (List.hd (None, pyDef_tree) (nchildren pyDef_tree))) [] [(pyDef_tree, [])].

(** An arrow function without a name, called on the spot, whose text is
    longer than a hundred characters. *)
Fixpoint repeatChar (c : ascii) (n : nat) : string :=
  match n with
  | O => EmptyString
  | S n' => String c (repeatChar c n')
  end.

Definition longArrow_text : string := "() => '" +:+ repeatChar "a" 100 +:+ "'".
Definition longArrow_source : string := "(" +:+ longArrow_text +:+ ")();".

Definition longArrow_arrow : Node :=
  named "arrow_function" longArrow_text 0 1 0 109
    [ (Some "parameters",
       named "formal_parameters" "()" 0 1 0 3 [token "(" 0 1 0 2; token ")" 0 2 0 3]);
      token "=>" 0 4 0 6;
      (Some "body",
       named "string" ("'" +:+ repeatChar "a" 100 +:+ "'") 0 7 0 109
         [ token "'" 0 7 0 8;
           (None, named "string_fragment" (repeatChar "a" 100) 0 8 0 108 []);
           token "'" 0 108 0 109 ]) ].

Definition longArrow_tree : Node :=
  named "program" longArrow_source 0 0 0 113
    [ (None,
       named "expression_statement" longArrow_source 0 0 0 113
         [ (None,
            named "call_expression" ("(" +:+ longArrow_text +:+ ")()") 0 0 0 112
              [ (Some "function",
                 named "parenthesized_expression" ("(" +:+ longArrow_text +:+ ")") 0 0 0 110
                   [ token "(" 0 0 0 1; (None, longArrow_arrow); token ")" 0 109 0 110 ]);
                (Some "arguments",
                 named "arguments" "()" 0 110 0 112
                   [token "(" 0 110 0 111; token ")" 0 111 0 112]) ]);
           token ";" 0 112 0 113 ]) ].

(** A parse step that knows the sources above and throws on anything else. *)
Definition sampleParse (_ : unit) (source : string) : Error + Node :=
  if Js.eqb source scenarioB_source then inr scenarioB_tree
  else if Js.eqb source methodAnonymous_source then inr methodAnonymous_tree
  else if Js.eqb source methodRun_source then inr methodRun_tree
  else if Js.eqb source pyDef_source then inr pyDef_tree
  else if Js.eqb source longArrow_source then inr longArrow_tree
  else inl (mkError "unexpected token").

Definition sampleRuntime : Runtime unit :=
  mkRuntime true
    (<["tree-sitter-javascript.wasm" := tt]> (<["tree-sitter-python.wasm" := tt]> ∅)) [].

(** Never called from an initialized runtime. *)
Definition sampleInitialize (rt : Runtime unit) : option Error * Runtime unit :=
  (None, mkRuntime true (languageInstances rt) (console rt)).

Definition sampleWorld : World unit := mkWorld sampleRuntime emptyCodeSymbols.

(** Scenario E: a root with one file and one subdirectory holding a file. *)
Definition scenarioE_root : FsNode :=
  Dir [ ("a.js", File 18 scenarioB_source);
        ("sub", Dir [ ("b.js", File 18 scenarioB_source) ]) ].

Definition sampleWalk (target : FsNode) (analyzeJs includeSymbols : bool)
    (symbolType : string) (maxDepth : Z) : list Chunk * World unit :=
  getDirectoryTree sampleParse sampleInitialize target ["project"] ["project"] [] None
    EmptyString analyzeJs includeSymbols symbolType 0 maxDepth sampleWorld.

(** A declaration over three lines. *)
Definition fooDecl_source : string :=
  "function foo() {" +:+ nl +:+ "  return 1;" +:+ nl +:+ "}".

Definition fooDecl_tree : Node :=
  named "program" fooDecl_source 0 0 2 1
    [ (None,
       named "function_declaration" fooDecl_source 0 0 2 1
         [ token "function" 0 0 0 8;
           (Some "name", named "identifier" "foo" 0 9 0 12 []);
           (Some "parameters",
            named "formal_parameters" "()" 0 12 0 14 [token "(" 0 12 0 13; token ")" 0 13 0 14]);
           (Some "body",
            named "statement_block" ("{" +:+ nl +:+ "  return 1;" +:+ nl +:+ "}") 0 15 2 1
              [ token "{" 0 15 0 16;
                (None,
                 named "return_statement" "return 1;" 1 2 1 11
                   [ token "return" 1 2 1 8;
                     (None, named "number" "1" 1 9 1 10 []);
                     token ";" 1 10 1 11 ]);
                token "}" 2 0 2 1 ]) ]) ].

(* ================================================================== *)
(** * Slicing a source text by a span *)
(* ================================================================== *)

(** The text of [source] from point [a] to point [b], rows and columns
    counted from 0, the end excluded. *)
Definition sourceBetween (source : string) (a b : Point) : string :=
  match take (row b - row a + 1) (drop (row a) (Js.split source (ascii_of_nat 10))) with
  | [] => EmptyString
  | [line] => Js.str (take (column b - column a) (drop (column a) (Js.chars line)))
  | first :: rest =>
      Js.join nl (Js.sliceFrom first (column a)
                  :: removelast rest ++ [Js.slice0 (List.last rest EmptyString) (column b)])
  end.

(** The text of [source] a position record spans: lines counted from 1,
    columns from 0. *)
Definition sliceSpan (source : string) (p : Position) : string :=
  sourceBetween source (mkPoint (startLine p - 1) (startCol p))
                       (mkPoint (endLine p - 1) (endCol p)).

(** What the parser promises about a node of the tree of [source]: its text
    is the source between its start and its end. *)
Definition spanOk (source : string) (node : SyntaxNode) : bool :=
  Js.eqb (text node) (sourceBetween source (startPosition node) (endPosition node)).

(** An ignore file with a plain name and a name with a plus sign in it, next
    to directories of these names, at the root and one level down. *)
Definition plusName_root : FsNode :=
  Dir [ (".gitignore", File 9 ("out" +:+ nl +:+ "a+b/" +:+ nl));
        ("a+b", Dir [ ("x.txt", File 1 "x") ]);
        ("out", Dir [ ("y.txt", File 1 "y") ]);
        ("src", Dir [ ("out", Dir [ ("z.txt", File 1 "z") ]);
                      ("a+b", Dir []) ]) ].

(* ================================================================== *)
(** * The tree text of a walk *)
(* ================================================================== *)



(** The patterns of a directory's own ignore file. *)
Definition gitignorePatterns (items : list (string * FsNode)) : list string :=
  match lookupItem ".gitignore" items with
  | Some (File _ content) => parseGitignore (Some content)
  | _ => []
  end.

(** The merged ignore set inside a directory. *)
Definition allPatternsIn (items : list (string * FsNode)) (ignorePatterns : list string)
    : list string :=
  defaultIgnorePatterns ++ ignorePatterns ++ gitignorePatterns items.

(** Skipped before the ignore test: the ignore file and dot entries. *)
Definition hidden (itemName : string) : bool :=
  Js.eqb itemName ".gitignore" || Js.startsWith itemName ".".




(** An entry that is neither hidden nor ignored. *)
Definition shown (rootPath : list string) (items : list (string * FsNode))
    (dirPath ignorePatterns : list string) (itemName : string) (item : FsNode) : Prop :=
  hidden itemName = false
  /\ shouldIgnore (Path.join dirPath itemName) (isDirectory item)
                  (allPatternsIn items ignorePatterns) rootPath = Returns false.



(** The entries a path holds: none when it is a file. *)
Definition entriesOf (target : FsNode) : list (string * FsNode) :=
  match target with
  | Dir items => items
  | File _ _ => []
  end.

(** [EntryAt items names item]: [names] leads from the directory whose
    entries are [items] down to [item], one entry name for each level; every
    name but the last is that of a directory entry whose entries hold the
    next name.  The entry lies [length names - 1] directories below. *)
Inductive EntryAt : list (string * FsNode) -> list string -> FsNode -> Prop :=
| EntryAt_here items itemName item :
    In (itemName, item) items ->
    EntryAt items [itemName] item
| EntryAt_below items itemName sub names item :
    In (itemName, Dir sub) items ->
    EntryAt sub names item ->
    EntryAt items (itemName :: names) item.


(** What every step of a walk leaves in place: an initialized runtime stays
    initialized and keeps its grammars, and no file leaves the store. *)
Definition carriesOn {Grammar : Type} (w w' : World Grammar) : Prop :=
  (initialized (runtime w) = true ->
   initialized (runtime w') = true
   /\ languageInstances (runtime w') = languageInstances (runtime w))
  /\ cs_files (codeSymbols w) ⊆ cs_files (codeSymbols w').



(* ================================================================== *)
(** * Names without pattern characters *)
(* ================================================================== *)

(** Letters, digits, the underscore and the hyphen mean themselves to the
    pattern compiler and to the engine; the dot is escaped by the compiler. *)
Definition plainChar (c : ascii) : bool :=
  RegExp.isWord c || (if ascii_dec c "-" then true else false).

Definition nameChar (c : ascii) : bool := plainChar c || Path.isDot c.

(** A non-empty name of such characters that does not hold the marker the
    compiler uses for the double star. *)
Definition plainName (name : string) : bool :=
  Js.truthy name && forallb nameChar (Js.chars name)
  && negb (Js.includes name "__DOUBLE_STAR__").

Definition escapeDots (l : list ascii) : list ascii :=
  flat_map (fun c => if Path.isDot c then ["\"%char; "."%char] else [c]) l.

(** What the compiled name becomes: the start group, the characters of the
    name, the end group. *)
Definition startGroup : RegExp.Re :=
  RegExp.Alt (RegExp.Seq RegExp.Bol RegExp.Empty)
    (RegExp.Alt
       (RegExp.Seq (RegExp.Star RegExp.Any) (RegExp.Seq (RegExp.Chr "/") RegExp.Empty))
       (RegExp.Seq RegExp.Bol (RegExp.Seq (RegExp.Chr "/") RegExp.Empty))).

Definition endGroup : RegExp.Re :=
  RegExp.Alt (RegExp.Seq RegExp.Eol RegExp.Empty)
    (RegExp.Seq (RegExp.Chr "/") (RegExp.Seq (RegExp.Star RegExp.Any) RegExp.Empty)).

Definition literalRe (l : list ascii) : RegExp.Re :=
  RegExp.seqOf (startGroup :: map RegExp.Chr l ++ [endGroup]).

Definition jsWasm : string := "tree-sitter-javascript.wasm".
Definition pyWasm : string := "tree-sitter-python.wasm".

(** The grammar a file is parsed with: the one loaded for its extension. *)
Definition grammarFor {Grammar : Type} (rt : Runtime Grammar) (filePath : string)
    : option Grammar :=
  getLanguageFromExtension filePath ≫= fun wasmFile => languageInstances rt !! wasmFile.

(* ================================================================== *)
(** * Further sample inputs *)
(* ================================================================== *)

(** The first node of a type in a tree, the root when there is none. *)
Definition firstOfType (tree : Node) (t : string) : SyntaxNode :=
  List.hd (rootOf tree) (descendantsOfType (rootOf tree) [t]).

(** A declaration inside the body of a declared arrow function. *)
Definition nestedLet_source : string := "const f = () => { let x = 1; };".

Definition nestedLet_inner : Node :=
  named "lexical_declaration" "let x = 1;" 0 18 0 28
    [ (Some "kind", snd (token "let" 0 18 0 21));
      (None,
       named "variable_declarator" "x = 1" 0 22 0 27
         [ (Some "name", named "identifier" "x" 0 22 0 23 []);
           token "=" 0 24 0 25;
           (Some "value", named "number" "1" 0 26 0 27 []) ]);
      token ";" 0 27 0 28 ].

Definition nestedLet_tree : Node :=
  named "program" nestedLet_source 0 0 0 31
    [ (None,
       named "lexical_declaration" nestedLet_source 0 0 0 31
         [ (Some "kind", snd (token "const" 0 0 0 5));
           (None,
            named "variable_declarator" "f = () => { let x = 1; }" 0 6 0 30
              [ (Some "name", named "identifier" "f" 0 6 0 7 []);
                token "=" 0 8 0 9;
                (Some "value",
                 named "arrow_function" "() => { let x = 1; }" 0 10 0 30
                   [ (Some "parameters",
                      named "formal_parameters" "()" 0 10 0 12
                        [token "(" 0 10 0 11; token ")" 0 11 0 12]);
                     token "=>" 0 13 0 15;
                     (Some "body",
                      named "statement_block" "{ let x = 1; }" 0 16 0 30
                        [ token "{" 0 16 0 17;
                          (None, nestedLet_inner);
                          token "}" 0 29 0 30 ]) ]) ]);
           token ";" 0 30 0 31 ]) ].

(** An exported function declaration. *)
Definition exportedFn_source : string := "export function foo() {}".

Definition exportedFn_tree : Node :=
  named "program" exportedFn_source 0 0 0 24
    [ (None,
       named "export_statement" exportedFn_source 0 0 0 24
         [ token "export" 0 0 0 6;
           (Some "declaration",
            named "function_declaration" "function foo() {}" 0 7 0 24
              [ token "function" 0 7 0 15;
                (Some "name", named "identifier" "foo" 0 16 0 19 []);
                (Some "parameters",
                 named "formal_parameters" "()" 0 19 0 21
                   [token "(" 0 19 0 20; token ")" 0 20 0 21]);
                (Some "body",
                 named "statement_block" "{}" 0 22 0 24
                   [token "{" 0 22 0 23; token "}" 0 23 0 24]) ]) ]) ].

(** A Python class with one method. *)
Definition pyClass_source : string := "class A:" +:+ nl +:+ "    def f(self): pass".

Definition pyClass_tree : Node :=
  named "module" pyClass_source 0 0 1 21
    [ (None,
       named "class_definition" pyClass_source 0 0 1 21
         [ token "class" 0 0 0 5;
           (Some "name", named "identifier" "A" 0 6 0 7 []);
           token ":" 0 7 0 8;
           (Some "body",
            named "block" "def f(self): pass" 1 4 1 21
              [ (None,
                 named "function_definition" "def f(self): pass" 1 4 1 21
                   [ token "def" 1 4 1 7;
                     (Some "name", named "identifier" "f" 1 8 1 9 []);
                     (Some "parameters",
                      named "parameters" "(self)" 1 9 1 15
                        [ token "(" 1 9 1 10;
                          (None, named "identifier" "self" 1 10 1 14 []);
                          token ")" 1 14 1 15 ]);
                     token ":" 1 15 1 16;
                     (Some "body",
                      named "block" "pass" 1 17 1 21
                        [ (None,
                           named "pass_statement" "pass" 1 17 1 21
                             [token "pass" 1 17 1 21]) ]) ]) ]) ]) ].


(** The five maps of the store have the analyzed files as their keys. *)
Definition coherent (cs : CodeSymbols) : Prop :=
  dom (cs_functions cs) = cs_files cs
  /\ dom (cs_variables cs) = cs_files cs
  /\ dom (cs_classes cs) = cs_files cs
  /\ dom (cs_imports cs) = cs_files cs
  /\ dom (cs_exports cs) = cs_files cs.

(** [Passed rootPath items dirPath ignorePatterns names item]: [names]
    leads from the directory whose entries are [items] down to [item]
    through entries that are neither hidden nor ignored, each tested with
    the patterns in force in its directory. *)
Inductive Passed (rootPath : list string)
    : list (string * FsNode) -> list string -> list string -> list string -> FsNode -> Prop :=
| Passed_here items dirPath ignorePatterns itemName item :
    In (itemName, item) items ->
    shown rootPath items dirPath ignorePatterns itemName item ->
    Passed rootPath items dirPath ignorePatterns [itemName] item
| Passed_below items dirPath ignorePatterns itemName sub names item :
    In (itemName, Dir sub) items ->
    shown rootPath items dirPath ignorePatterns itemName (Dir sub) ->
    Passed rootPath sub (Path.join dirPath itemName) (allPatternsIn items ignorePatterns)
      names item ->
    Passed rootPath items dirPath ignorePatterns (itemName :: names) item.

(** The files a walk adds to the store are reached through entries that are
    shown. *)
Definition addsShown {Grammar : Type} (rootPath : list string)
    (items : list (string * FsNode)) (dirPath ignorePatterns : list string)
    (w w' : World Grammar) : Prop :=
  forall p, p ∈ cs_files (codeSymbols w') ->
    p ∈ cs_files (codeSymbols w)
    \/ exists names size content,
         Passed rootPath items dirPath ignorePatterns names (File size content)
         /\ p = Path.toString (dirPath ++ names).

(** The names the default rules ignore at every depth. *)
Definition defaultNames : list string := ["node_modules"; "dist"; "build"; "coverage"].


(* ================================================================== *)
(** * Properties *)
(* ================================================================== *)

(** ** Strings *)

Lemma chars_str (l : list ascii) : Js.chars (Js.str l) = l.
Proof. apply list_ascii_of_string_of_list_ascii. Qed.

Lemma str_chars (s : string) : Js.str (Js.chars s) = s.
Proof. apply string_of_list_ascii_of_string. Qed.

Lemma eqb_true (a b : string) : Js.eqb a b = true <-> a = b.
Proof. unfold Js.eqb. destruct (string_dec a b); split; congruence. Qed.

Lemma eqb_false (a b : string) : Js.eqb a b = false <-> a <> b.
Proof. unfold Js.eqb. destruct (string_dec a b); split; congruence. Qed.

Lemma eqb_refl (a : string) : Js.eqb a a = true.
Proof. by apply eqb_true. Qed.

Lemma inList_In (x : string) (l : list string) : Js.inList x l = true <-> In x l.
Proof.
  unfold Js.inList. rewrite existsb_exists. split.
  - intros (y & Hy & E). apply eqb_true in E. by subst.
  - intros H. exists x. split; [done | apply eqb_refl].
Qed.

(** ** Syntax trees *)

(** Induction on a tree with the hypothesis for every child. *)
Lemma Node_induction (P : Node -> Prop) :
  (forall t nm tx s e cs, Forall (fun c => P (snd c)) cs -> P (mkNode t nm tx s e cs)) ->
  forall n, P n.
Proof.
  intros step. fix IH 1. intros [t nm tx s e cs]. apply step.
  induction cs as [| [f c] cs IHcs]; constructor; [apply IH | exact IHcs].
Qed.

Lemma descendants_unfold (n : SyntaxNode) :
  descendants n = n :: flat_map descendants (children n).
Proof.
  destruct n as [[t nm tx s e cs] sibs up]. unfold descendants, children, fieldChildren.
  cbn [here after above nchildren subtree]. f_equal.
  generalize (mkNode t nm tx s e cs, sibs) as p. intros p.
  induction cs as [| [f c] cs IH]; [done |].
  cbn [childrenFrom map flat_map snd here after above]. by rewrite IH.
Qed.

Lemma descendants_self (n : SyntaxNode) : In n (descendants n).
Proof. rewrite descendants_unfold. by left. Qed.

Lemma children_here (n c : SyntaxNode) :
  In c (children n) -> In (here c) (map snd (nchildren (here n))).
Proof.
  unfold children, fieldChildren. generalize (here n, after n) (above n).
  induction (nchildren (here n)) as [| [f x] cs IH]; intros p up; [done |].
  cbn. intros [<- | H]; [by left | right; eauto].
Qed.

Lemma children_parent (n c : SyntaxNode) : In c (children n) -> parentNode c = Some n.
Proof.
  unfold children, fieldChildren. destruct n as [h a u]. cbn [here after above].
  induction (nchildren h) as [| [f x] cs IH]; [done |].
  cbn. intros [<- | H]; [done | auto].
Qed.

(** Whatever lies below a node of the walk is part of the walk. *)
Lemma descendants_trans (a b c : SyntaxNode) :
  In b (descendants a) -> In c (descendants b) -> In c (descendants a).
Proof.
  destruct a as [h sibs up]. revert sibs up b c.
  induction h as [t nm tx s e cs IH] using Node_induction.
  intros sibs up b c. rewrite descendants_unfold.
  intros [<- | Hb] Hc; [by rewrite descendants_unfold in Hc |].
  right. apply in_flat_map in Hb as (x & Hx & Hb). apply in_flat_map.
  exists x. split; [done |].
  destruct x as [hx sx ux]. pose proof (children_here _ _ Hx) as Hin. cbn in Hin.
  apply in_map_iff in Hin as ([f y] & Ey & Hy). cbn in Ey. subst y.
  rewrite Forall_forall in IH. apply list_elem_of_In in Hy.
  exact (IH _ Hy sx ux b c Hb Hc).
Qed.

Lemma descendants_child (a b c : SyntaxNode) :
  In b (descendants a) -> In c (children b) -> In c (descendants a).
Proof.
  intros Hb Hc. apply (descendants_trans a b c Hb).
  rewrite descendants_unfold. right. apply in_flat_map. exists c.
  split; [done | apply descendants_self].
Qed.

Lemma descendantsOfType_In (n d : SyntaxNode) (types : list string) :
  In d (descendantsOfType n types) <-> In d (descendants n) /\ In (type d) types.
Proof.
  unfold descendantsOfType. rewrite filter_In. by rewrite inList_In.
Qed.

Lemma childForFieldName_child (n c : SyntaxNode) (f : string) :
  childForFieldName n f = Some c -> In c (children n).
Proof.
  unfold childForFieldName, children. intros H.
  destruct (List.find _ (fieldChildren n)) as [[g x] |] eqn:E; [| done].
  cbn in H. injection H as ->. apply find_some in E as [E _].
  apply in_map_iff. by exists (g, c).
Qed.

Lemma in_omap_intro {A B} (f : A -> option B) (l : list A) (x : A) (y : B) :
  In x l -> f x = Some y -> In y (omap f l).
Proof.
  intros Hx Hf. apply list_elem_of_In. apply list_elem_of_omap.
  exists x. split; [by apply list_elem_of_In | done].
Qed.

Lemma in_omap_elim {A B} (f : A -> option B) (l : list A) (y : B) :
  In y (omap f l) -> exists x, In x l /\ f x = Some y.
Proof.
  intros H. apply list_elem_of_In, list_elem_of_omap in H as (x & Hx & Hf).
  exists x. split; [by apply list_elem_of_In | done].
Qed.

(** ** The significance filter and the functions listing *)

Lemma extractFromTree_js (rootNode : SyntaxNode) :
  extractFromTree jsWasm rootNode
  = mkTable (jsFunctions rootNode) (jsVariables rootNode) (jsClasses rootNode)
            (jsImports rootNode) (jsExports rootNode).
Proof. reflexivity. Qed.

Lemma extractFromTree_py (rootNode : SyntaxNode) :
  extractFromTree pyWasm rootNode
  = mkTable (pyFunctions rootNode) (pyVariables rootNode) (pyClasses rootNode)
            (pyImports rootNode) [].
Proof. reflexivity. Qed.

(** A short arrow function is dropped whatever name was inferred for it. *)
Lemma short_arrow_insignificant (node : SyntaxNode) (name : string) :
  type node = "arrow_function" -> Js.length (text node) < 15 ->
  isSignificantFunction node name = false.
Proof.
  intros Ht Hl. unfold isSignificantFunction. rewrite Ht.
  apply Nat.ltb_lt in Hl. by rewrite Hl.
Qed.

Lemma short_arrow_not_recorded (node : SyntaxNode) :
  type node = "arrow_function" -> Js.length (text node) < 15 -> jsFunctionOf node = None.
Proof.
  intros Ht Hl. unfold jsFunctionOf. rewrite Ht. cbn.
  by rewrite (short_arrow_insignificant node _ Ht Hl).
Qed.

(** C1, the claim on the code: for scenario B the summary line does not
    report 1 function. *)
Lemma C1_summary_reports_no_function :
  let symbols := extractFromTree jsWasm (rootOf scenarioB_tree) in
  length (functions symbols) <> 1
  /\ summaryLine "    " symbols
     <> "    └── [Analyzed: 1 functions, 1 variables, 0 classes]" +:+ nl.
Proof. split; vm_compute; discriminate. Qed.

(** C1, as amended.  For the source [const f = () => 1;] the name inferred
    for the arrow function is [f]; its text has 7 characters, fewer than 15,
    so the significance filter drops it while the functions list is built;
    the list is empty, the summary line of the file reports 0 functions (and
    1 variable), and the listing for symbol type [functions] is empty. *)
Theorem C1_short_arrow_dropped_at_extraction :
  let symbols := extractFromTree jsWasm (rootOf scenarioB_tree) in
  In scenarioB_arrowNode (descendants (rootOf scenarioB_tree))
  /\ inferFunctionName scenarioB_arrowNode = "f"
  /\ Js.length (text scenarioB_arrowNode) = 7
  /\ isSignificantFunction scenarioB_arrowNode "f" = false
  /\ functions symbols = []
  /\ length (variables symbols) = 1
  /\ functionsListing "    " "functions" symbols = EmptyString
  /\ fst (sampleWalk (Dir [("a.js", File 18 scenarioB_source)]) true true "functions" 5)
     = [ EntryLine ("└── a.js (1 KB)" +:+ nl);
         Summary ("    └── [Analyzed: 0 functions, 1 variables, 0 classes]" +:+ nl);
         Listing EmptyString ]
  /\ render (fst (sampleWalk (Dir [("a.js", File 18 scenarioB_source)]) true true
                    "functions" 5))
     = "└── a.js (1 KB)" +:+ nl
       +:+ "    └── [Analyzed: 0 functions, 1 variables, 0 classes]" +:+ nl.
Proof.
  cbv zeta. split.
  - vm_compute. tauto.
  - repeat split; vm_compute; reflexivity.
Qed.

Lemma fileFunctions_In (symbols : FileSymbolTable) (fn : FunctionRec) :
  In fn (fileFunctions symbols) <-> In fn (functions symbols) /\ fn_name fn <> "anonymous".
Proof.
  unfold fileFunctions. rewrite filter_In, negb_true_iff, eqb_false. tauto.
Qed.

(** An expression-form function without a name and longer than a hundred
    characters, not the direct child of a call or member expression, is
    recorded under the name [anonymous]. *)
Lemma long_anonymous_recorded (root node : SyntaxNode) :
  In node (descendants root) ->
  type node = "arrow_function" \/ type node = "function" ->
  inferFunctionName node = "anonymous" ->
  100 < Js.length (text node) ->
  typeIs (parentNode node) "call_expression" = false ->
  typeIs (parentNode node) "member_expression" = false ->
  In (mkFunction "anonymous" None (getPosition node) (text node)) (jsFunctions root).
Proof.
  intros Hin Ht Hname Hlen Hc Hm. unfold jsFunctions.
  apply (in_omap_intro _ _ node).
  - apply descendantsOfType_In. split; [done |]. destruct Ht as [-> | ->]; cbn; tauto.
  - assert (Hsig : isSignificantFunction node "anonymous" = true).
    { assert (H15 : (Js.length (text node) <? 15) = false) by (apply Nat.ltb_ge; lia).
      assert (H50 : (Js.length (text node) <? 50) = false) by (apply Nat.ltb_ge; lia).
      assert (H100 : (100 <? Js.length (text node)) = true) by (apply Nat.ltb_lt; lia).
      unfold isSignificantFunction. rewrite H15, andb_false_r, H50, H100.
      destruct (parentNode node); [rewrite andb_false_r |]; cbv beta iota;
        by rewrite orb_true_r. }
    unfold jsFunctionOf. destruct Ht as [Ht | Ht]; rewrite Ht; cbn; by rewrite Hname, Hsig.
Qed.

(** C6.  The functions listing shows exactly the records whose name is not
    the literal string [anonymous]: whatever the symbol type asked for, the
    listing is empty or is the header followed by one line per such record.
    A record named [anonymous] that passed the significance filter, as the
    arrow function of 108 characters of the sample does, is counted by the
    summary line and never listed. *)
Theorem C6_listing_drops_anonymous (symbols : FileSymbolTable) (childIndent symbolType : string) :
  (forall fn, In fn (fileFunctions symbols)
              <-> In fn (functions symbols) /\ fn_name fn <> "anonymous")
  /\ (functionsListing childIndent symbolType symbols = EmptyString
      \/ functionsListing childIndent symbolType symbols
         = childIndent +:+ "    Functions:" +:+ nl
           +:+ Js.join nl (map (functionLine childIndent) (fileFunctions symbols)) +:+ nl)
  /\ (let long := extractFromTree jsWasm (rootOf longArrow_tree) in
      map fn_name (functions long) = ["anonymous"]
      /\ map (fun fn => Js.length (fn_code fn)) (functions long) = [108]
      /\ fileFunctions long = []
      /\ fst (sampleWalk (Dir [("long.js", File 113 longArrow_source)]) true true "functions" 5)
         = [ EntryLine ("└── long.js (1 KB)" +:+ nl);
             Summary ("    └── [Analyzed: 1 functions, 0 variables, 0 classes]" +:+ nl);
             Listing EmptyString ]).
Proof.
  split; [apply fileFunctions_In |]. split.
  - unfold functionsListing.
    destruct (wants symbolType "functions" && (0 <? length (functions symbols))); [| by left].
    destruct (fileFunctions symbols); [by left | by right].
  - cbv zeta. repeat split; vm_compute; reflexivity.
Qed.

(** ** The extractor as a whole *)

Section ExtractorFacts.

Context {Grammar : Type}.
Variable parse : Grammar -> string -> Error + Node.
Variable initializeTreeSitter : Runtime Grammar -> option Error * Runtime Grammar.

Lemma try_languageInstances (rt : Runtime Grammar) (filePath fileContent : string) :
  languageInstances (snd (extractCodeSymbols_try parse rt filePath fileContent))
  = languageInstances rt
  /\ initialized (snd (extractCodeSymbols_try parse rt filePath fileContent)) = initialized rt.
Proof.
  unfold extractCodeSymbols_try.
  destruct (getLanguageFromExtension filePath) as [wasmFile |]; [| done].
  destruct (languageInstances rt !! wasmFile) as [g |]; [| done].
  by destruct (parse g fileContent).
Qed.

(** The result of the [try] block is a function of the loaded grammars, the
    path and the text: the flag and the console play no part. *)
Lemma try_result_depends_on_grammars (rt rt' : Runtime Grammar) (filePath fileContent : string) :
  languageInstances rt' = languageInstances rt ->
  fst (extractCodeSymbols_try parse rt' filePath fileContent)
  = fst (extractCodeSymbols_try parse rt filePath fileContent).
Proof.
  intros E. unfold extractCodeSymbols_try. rewrite E.
  destruct (getLanguageFromExtension filePath) as [wasmFile |]; [| done].
  destruct (languageInstances rt !! wasmFile) as [g |]; [| done].
  by destruct (parse g fileContent).
Qed.

Lemma extract_initialized (rt : Runtime Grammar) (filePath fileContent : string) :
  initialized rt = true ->
  extractCodeSymbols parse initializeTreeSitter rt filePath fileContent
  = (Returns (fst (extractCodeSymbols_try parse rt filePath fileContent)),
     snd (extractCodeSymbols_try parse rt filePath fileContent)).
Proof.
  intros Hi. unfold extractCodeSymbols. rewrite Hi.
  by destruct (extractCodeSymbols_try parse rt filePath fileContent).
Qed.

(** An error leaves [extractCodeSymbols] only from the initialization that
    precedes its [try] block. *)
Lemma extract_throws_only_from_initialization (rt : Runtime Grammar)
    (filePath fileContent : string) (e : Error) :
  fst (extractCodeSymbols parse initializeTreeSitter rt filePath fileContent) = Throws e ->
  initialized rt = false /\ fst (initializeTreeSitter rt) = Some e.
Proof.
  unfold extractCodeSymbols. destruct (initialized rt).
  - by destruct (extractCodeSymbols_try parse rt filePath fileContent).
  - destruct (initializeTreeSitter rt) as [[e' |] rt']; cbn.
    + intros [= ->]. done.
    + by destruct (extractCodeSymbols_try parse rt' filePath fileContent).
Qed.

(** C5.  With the parser runtime initialized, as it is whenever the walker
    calls the extractor, [extractCodeSymbols] always returns: [null] exactly
    when no loaded grammar answers the file's extension or when the parse
    step throws; in the second case the error goes to the console and is not
    raised again; in every other case the table built from the parsed tree
    is returned. *)
Theorem C5_null_iff_no_grammar_or_parse_throws (rt : Runtime Grammar)
    (filePath fileContent : string) :
  initialized rt = true ->
  let run := extractCodeSymbols parse initializeTreeSitter rt filePath fileContent in
  (exists r, fst run = Returns r)
  /\ (fst run = Returns None
      <-> grammarFor rt filePath = None
          \/ exists g e, grammarFor rt filePath = Some g /\ parse g fileContent = inl e)
  /\ (forall g e, grammarFor rt filePath = Some g -> parse g fileContent = inl e ->
        fst run = Returns None
        /\ console (snd run)
           = console rt ++ ["Error parsing " +:+ filePath +:+ ": " +:+ message e])
  /\ (forall g tree, grammarFor rt filePath = Some g -> parse g fileContent = inr tree ->
        exists wasmFile,
          getLanguageFromExtension filePath = Some wasmFile
          /\ fst run = Returns (Some (extractFromTree wasmFile (rootOf tree)))
          /\ snd run = rt).
Proof.
  intros Hi run. subst run. rewrite (extract_initialized _ _ _ Hi). cbn [fst snd].
  unfold grammarFor, extractCodeSymbols_try.
  destruct (getLanguageFromExtension filePath) as [wasmFile |]; cbn.
  2: { split; [eauto |]. split; [tauto |]. split; intros; discriminate. }
  destruct (languageInstances rt !! wasmFile) as [g |]; cbn.
  2: { split; [eauto |]. split; [tauto |]. split; intros; discriminate. }
  destruct (parse g fileContent) as [e | tree] eqn:Ep; cbn.
  - split; [eauto |]. split; [split; [intros _; right; eauto | done] |].
    split.
    + intros g' e' [= <-] Ep'. rewrite Ep in Ep'. by injection Ep' as <-.
    + intros g' tree' [= <-] Ep'. congruence.
  - split; [eauto |]. split.
    + split; [discriminate |]. intros [H | (g' & e & [= <-] & H)]; congruence.
    + split.
      * intros g' e' [= <-] Ep'. congruence.
      * intros g' tree' [= <-] Ep'. rewrite Ep in Ep'. injection Ep' as <-. eauto.
Qed.

(** C8.  With the parser runtime initialized, running the extractor a second
    time on the same path and text, from the runtime the first run left,
    yields the same result, and so does any run from a runtime with the same
    grammars loaded: the table is a function of the path and the text. *)
Theorem C8_extraction_repeatable (rt : Runtime Grammar) (filePath fileContent : string) :
  initialized rt = true ->
  let first := extractCodeSymbols parse initializeTreeSitter rt filePath fileContent in
  fst (extractCodeSymbols parse initializeTreeSitter (snd first) filePath fileContent)
  = fst first
  /\ forall rt' : Runtime Grammar,
       initialized rt' = true -> languageInstances rt' = languageInstances rt ->
       fst (extractCodeSymbols parse initializeTreeSitter rt' filePath fileContent)
       = fst first.
Proof.
  intros Hi first. subst first. rewrite (extract_initialized _ _ _ Hi). cbn [fst snd].
  destruct (try_languageInstances rt filePath fileContent) as [El Ei].
  split.
  - rewrite extract_initialized by congruence. cbn [fst].
    f_equal. by apply try_result_depends_on_grammars.
  - intros rt' Hi' El'. rewrite (extract_initialized _ _ _ Hi'). cbn [fst].
    f_equal. by apply try_result_depends_on_grammars.
Qed.

End ExtractorFacts.

(** C9.  In a Python file every [function_definition] node of the tree
    yields a function record, whatever its name and however short its text:
    the record carries the node's text and position, and there are as many
    records as such nodes. *)
Theorem C9_python_definitions_all_recorded (tree : Node) (node : SyntaxNode) :
  In node (descendants (rootOf tree)) ->
  type node = "function_definition" ->
  let symbols := extractFromTree pyWasm (rootOf tree) in
  In (pyFunctionOf node) (functions symbols)
  /\ fn_code (pyFunctionOf node) = text node
  /\ fn_position (pyFunctionOf node) = getPosition node
  /\ length (functions symbols)
     = length (List.filter (fun d => Js.eqb (type d) "function_definition")
                           (descendants (rootOf tree))).
Proof.
  intros Hin Ht symbols. subst symbols. rewrite extractFromTree_py.
  cbn [functions]. unfold pyFunctions. split; [| split; [done | split; [done |]]].
  - apply in_map. apply descendantsOfType_In. split; [done |]. rewrite Ht. by left.
  - rewrite length_map. unfold descendantsOfType. f_equal.
    apply filter_ext. intros d. unfold Js.inList. cbn. by rewrite orb_false_r.
Qed.

(** The definition of the sample module has 13 characters and is recorded. *)
Lemma C9_witness :
  Js.length (text pyDef_node) = 13
  /\ In (pyFunctionOf pyDef_node) (functions (extractFromTree pyWasm (rootOf pyDef_tree))).
Proof.
  split; [reflexivity |].
  refine (proj1 (C9_python_definitions_all_recorded pyDef_tree pyDef_node _ _)).
  - vm_compute. tauto.
  - reflexivity.
Defined.

(** On the sample runtime: a JavaScript file that parses, one that does not,
    and a file without grammar. *)
Lemma C5_witness :
  (exists r, fst (extractCodeSymbols sampleParse sampleInitialize sampleRuntime
                    "/project/a.js" scenarioB_source) = Returns r)
  /\ (fst (extractCodeSymbols sampleParse sampleInitialize sampleRuntime
             "/project/notes.txt" scenarioB_source) = Returns None
      <-> grammarFor sampleRuntime "/project/notes.txt" = None
          \/ exists g e, grammarFor sampleRuntime "/project/notes.txt" = Some g
                         /\ sampleParse g scenarioB_source = inl e).
Proof.
  split.
  - exact (proj1 (C5_null_iff_no_grammar_or_parse_throws sampleParse sampleInitialize
                    sampleRuntime "/project/a.js" scenarioB_source eq_refl)).
  - exact (proj1 (proj2 (C5_null_iff_no_grammar_or_parse_throws sampleParse sampleInitialize
                           sampleRuntime "/project/notes.txt" scenarioB_source eq_refl))).
Defined.

Lemma C8_witness :
  let first := extractCodeSymbols sampleParse sampleInitialize sampleRuntime
                 "/project/a.js" scenarioB_source in
  fst (extractCodeSymbols sampleParse sampleInitialize (snd first)
         "/project/a.js" scenarioB_source) = fst first.
Proof.
  exact (proj1 (C8_extraction_repeatable sampleParse sampleInitialize sampleRuntime
                  "/project/a.js" scenarioB_source eq_refl)).
Defined.

(** ** Positions *)

Lemma jsFunctionOf_provenance (node : SyntaxNode) (fn : FunctionRec) :
  jsFunctionOf node = Some fn ->
  fn_position fn = getPosition node /\ fn_code fn = text node.
Proof.
  unfold jsFunctionOf.
  destruct (if Js.eqb (type node) "function_declaration" then _ else _) as [name parentFunction].
  destruct (isSignificantFunction node name); [| done].
  intros [= <-]. done.
Qed.

Lemma function_provenance (wasmFile : string) (rootNode : SyntaxNode) (fn : FunctionRec) :
  In fn (functions (extractFromTree wasmFile rootNode)) ->
  exists node, In node (descendants rootNode)
               /\ fn_position fn = getPosition node /\ fn_code fn = text node.
Proof.
  unfold extractFromTree.
  destruct (Js.eqb wasmFile "tree-sitter-javascript.wasm"); cbn [functions].
  - intros H. apply in_omap_elim in H as (node & Hn & Hf).
    apply descendantsOfType_In in Hn as [Hn _].
    exists node. split; [done | by apply jsFunctionOf_provenance].
  - destruct (Js.eqb wasmFile "tree-sitter-python.wasm"); cbn [functions]; [| done].
    intros H. apply in_map_iff in H as (node & <- & Hn).
    apply descendantsOfType_In in Hn as [Hn _]. by exists node.
Qed.

Lemma sliceSpan_getPosition (source : string) (node : SyntaxNode) :
  sliceSpan source (getPosition node)
  = sourceBetween source (startPosition node) (endPosition node).
Proof.
  unfold sliceSpan, getPosition. cbn [startLine startCol endLine endCol].
  rewrite !Nat.add_sub. by destruct (startPosition node), (endPosition node).
Qed.

(** C7.  Every function record, of either language, comes from a node of the
    tree: its position is that node's span with 1 added to both rows and the
    columns kept, so lines count from 1 and columns from 0.  When the tree
    is the parser's tree of [source], each node's text being the source
    between its two points, slicing [source] by the record's position gives
    the record's [code], exactly and hence up to surrounding white space. *)
Theorem C7_position_span_reproduces_code (wasmFile source : string) (tree : Node)
    (fn : FunctionRec) :
  (forall node, In node (descendants (rootOf tree)) -> spanOk source node = true) ->
  In fn (functions (extractFromTree wasmFile (rootOf tree))) ->
  (exists node, In node (descendants (rootOf tree))
     /\ startLine (fn_position fn) = row (startPosition node) + 1
     /\ startCol (fn_position fn) = column (startPosition node)
     /\ endLine (fn_position fn) = row (endPosition node) + 1
     /\ endCol (fn_position fn) = column (endPosition node)
     /\ fn_code fn = text node)
  /\ 1 <= startLine (fn_position fn)
  /\ sliceSpan source (fn_position fn) = fn_code fn
  /\ Js.trim (sliceSpan source (fn_position fn)) = Js.trim (fn_code fn).
Proof.
  intros Hok Hfn.
  destruct (function_provenance _ _ _ Hfn) as (node & Hn & Hp & Hc).
  assert (Hs : sliceSpan source (fn_position fn) = fn_code fn).
  { rewrite Hp, Hc, sliceSpan_getPosition. symmetry. apply eqb_true. by apply Hok. }
  split; [| split; [| split]].
  - exists node. rewrite Hp. by repeat split.
  - rewrite Hp. cbn. lia.
  - exact Hs.
  - by rewrite Hs.
Qed.

Lemma forallb_In {A} (f : A -> bool) (l : list A) :
  forallb f l = true -> forall x, In x l -> f x = true.
Proof. intros H x Hx. rewrite forallb_forall in H. by apply H. Qed.

(** The declaration over three lines: lines 1 to 3, columns 0 to 1. *)
Lemma C7_witness :
  let fn := mkFunction "foo" None (mkPosition 1 0 3 1) fooDecl_source in
  In fn (functions (extractFromTree jsWasm (rootOf fooDecl_tree)))
  /\ sliceSpan fooDecl_source (fn_position fn) = fn_code fn.
Proof.
  cbv zeta.
  assert (Hin : In (mkFunction "foo" None (mkPosition 1 0 3 1) fooDecl_source)
                   (functions (extractFromTree jsWasm (rootOf fooDecl_tree))))
    by (vm_compute; tauto).
  split; [exact Hin |].
  refine (proj1 (proj2 (proj2
            (C7_position_span_reproduces_code jsWasm fooDecl_source fooDecl_tree _ _ Hin)))).
  apply forallb_In. vm_compute. reflexivity.
Defined.

(** ** Class methods *)

Lemma method_significant (m : SyntaxNode) (body : SyntaxNode) (name : string) :
  type m = "method_definition" -> parentNode m = Some body -> type body = "class_body" ->
  isSignificantFunction m name
  = negb (Js.eqb name "anonymous") || (100 <? Js.length (text m)).
Proof.
  intros Ht Hp Hb. unfold isSignificantFunction. by rewrite Ht, Hp, Hb.
Qed.

(** A named method directly inside the body of a named class declaration
    is recorded as a function, with the class as its parent, and as a method
    of the class record, provided its name is not the word [anonymous] or
    its text is longer than a hundred characters. *)
Lemma method_recorded_twice (root cls body m className methodName : SyntaxNode) :
  In cls (descendants root) ->
  type cls = "class_declaration" ->
  childForFieldName cls "name" = Some className ->
  In body (children cls) -> type body = "class_body" ->
  In m (children body) -> type m = "method_definition" ->
  childForFieldName m "name" = Some methodName ->
  text methodName <> "anonymous" \/ 100 < Js.length (text m) ->
  In (mkFunction (text methodName) (Some (text className)) (getPosition m) (text m))
     (jsFunctions root)
  /\ exists c, In c (jsClasses root)
               /\ cls_name c = text className
               /\ exists mr, In mr (cls_methods c)
                             /\ m_name mr = text methodName
                             /\ m_position mr = getPosition m
                             /\ m_code mr = text m.
Proof.
  intros Hcls Tcls Ncls Hbody Tbody Hm Tm Nm Hsig.
  pose proof (children_parent _ _ Hm) as Pm.
  pose proof (children_parent _ _ Hbody) as Pbody.
  assert (Hm_cls : In m (descendants cls)).
  { apply (descendants_child cls body m); [| done].
    apply (descendants_child cls cls body); [apply descendants_self | done]. }
  split.
  - unfold jsFunctions. apply (in_omap_intro _ _ m).
    + apply descendantsOfType_In. split.
      * by apply (descendants_trans root cls m).
      * rewrite Tm. cbn. tauto.
    + unfold jsFunctionOf. rewrite Tm. cbn [Js.eqb string_dec]. cbn.
      rewrite Nm, Pm. cbn. rewrite Pbody, Tcls. cbn. rewrite Ncls. cbn.
      rewrite (method_significant m body _ Tm Pm Tbody).
      assert (negb (Js.eqb (text methodName) "anonymous")
              || (100 <? Js.length (text m)) = true) as ->; [| done].
      destruct Hsig as [H | H].
      * apply eqb_false in H. by rewrite H.
      * apply Nat.ltb_lt in H. rewrite H. apply orb_true_r.
  - eexists. split.
    + unfold jsClasses. apply (in_omap_intro _ _ cls).
      * apply descendantsOfType_In. split; [done |]. rewrite Tcls. by left.
      * unfold jsClassOf. rewrite Ncls. reflexivity.
    + cbn. split; [done |]. eexists. split.
      * apply (in_omap_intro _ _ m).
        -- apply descendantsOfType_In. split; [done |]. rewrite Tm. by left.
        -- unfold jsMethodOf. rewrite Nm. reflexivity.
      * done.
Qed.

(** C10, on the code.  In [class A { anonymous() {} }] the method is named
    and sits directly in the body of the named class [A]; it appears among
    the methods of the class record and not among the function records: the
    functions list is empty, the summary counts 0 functions and so does the
    total of the run.  For the same class with the method called [run] both
    records exist and the total is 1. *)
Theorem C10_method_named_anonymous_recorded_once :
  let symbols := extractFromTree jsWasm (rootOf methodAnonymous_tree) in
  functions symbols = []
  /\ map (fun c => (cls_name c, map m_name (cls_methods c))) (classes symbols)
     = [("A", ["anonymous"])]
  /\ fst (sampleWalk (Dir [("a.js", File 26 methodAnonymous_source)]) true false "all" 5)
     = [ EntryLine ("└── a.js (1 KB)" +:+ nl);
         Summary ("    └── [Analyzed: 0 functions, 0 variables, 1 classes]" +:+ nl) ]
  /\ totalFunctions
       (codeSymbols
          (snd (sampleWalk (Dir [("a.js", File 26 methodAnonymous_source)]) true false "all" 5)))
     = 0
  /\ (let symbols' := extractFromTree jsWasm (rootOf methodRun_tree) in
      map (fun fn => (fn_name fn, fn_parent fn)) (functions symbols') = [("run", Some "A")]
      /\ map (fun c => (cls_name c, map m_name (cls_methods c))) (classes symbols')
         = [("A", ["run"])]
      /\ totalFunctions
           (codeSymbols
              (snd (sampleWalk (Dir [("a.js", File 20 methodRun_source)]) true false "all" 5)))
         = 1).
Proof. cbv zeta. repeat split; vm_compute; reflexivity. Qed.

(** ** The file classifier *)

Lemma takeWhile_all {A} (f : A -> bool) (l : list A) (x : A) :
  In x (Path.takeWhile f l) -> f x = true.
Proof.
  induction l as [| y l IH]; [done |]. cbn. destruct (f y) eqn:E; [| done].
  intros [<- | H]; auto.
Qed.

(** What follows the dot of an extension holds no dot. *)
Lemma extension_has_no_dot (p : list ascii) :
  ~ In "."%char (drop 1 (Path.extnamel p)).
Proof.
  unfold Path.extnamel.
  destruct (Js.dropWhile Path.notDot (rev (Path.lastPortion p))) as [| a [| b l]]; [easy | easy |].
  destruct (Js.eqb _ ".."); [easy |]. cbn [skipn]. rewrite drop_0, <- in_rev. intros H.
  by apply takeWhile_all in H.
Qed.

Lemma lowerChar_dot (c : ascii) : Js.lowerChar c = "."%char -> c = "."%char.
Proof.
  destruct c as [[] [] [] [] [] [] [] []]; vm_compute; intros H; try exact H; discriminate.
Qed.

Lemma includes_char_In (s : list ascii) (c : ascii) :
  Js.includesl s [c] = true -> In c s.
Proof.
  induction s as [| x s IH]; cbn; [done |].
  destruct (ascii_dec c x) as [-> | _]; [by left |]. cbn. auto.
Qed.

(** A pattern with a dot in it is no extension. *)
Lemma dotted_pattern_is_no_extension (filePath pattern : string) :
  Js.includes pattern "." = true ->
  Js.eqb (Js.toLowerCase (Js.sliceFrom (Path.extname filePath) 1)) (Js.toLowerCase pattern)
  = false.
Proof.
  intros Hdot. apply eqb_false. intros E.
  apply includes_char_In in Hdot.
  assert (Hin : In "."%char (map Js.lowerChar (Js.chars pattern))).
  { apply in_map_iff. by exists "."%char. }
  unfold Js.toLowerCase in E. apply (f_equal Js.chars) in E. rewrite !chars_str in E.
  rewrite <- E in Hin. apply in_map_iff in Hin as (c & Hc & Hin).
  apply lowerChar_dot in Hc. subst c.
  unfold Js.sliceFrom, Path.extname in Hin. rewrite !chars_str in Hin.
  by apply extension_has_no_dot in Hin.
Qed.

Lemma somePattern_true (filePath fileName : string) (patterns : list string) :
  (forall q, In q patterns -> exists b, matchesPattern filePath fileName q = Returns b) ->
  somePattern filePath fileName patterns = Returns true
  <-> exists q, In q patterns /\ matchesPattern filePath fileName q = Returns true.
Proof.
  induction patterns as [| p ps IH]; intros Hall; cbn.
  - split; [discriminate | by intros (q & [] & _)].
  - destruct (Hall p (or_introl eq_refl)) as [b Hb]. rewrite Hb. destruct b.
    + split; [| done]. intros _. exists p. split; [by left | done].
    + rewrite IH by (intros q Hq; apply Hall; by right). split.
      * intros (q & Hq & Hm). exists q. split; [by right | done].
      * intros (q & [<- | Hq] & Hm); [congruence | eauto].
Qed.

(** C3, on the code.  The README of the tool lists exact file names among
    the pattern forms it supports and gives the list [package.json],
    [*.config.js] as an example.  The classifier has no such form.  With a
    non-empty pattern list whose patterns all evaluate, a path is eligible
    exactly when some pattern matches it; a pattern without wildcard that
    starts with a dot matches when the path ends with it; a pattern without
    wildcard and without leading dot is compared, letter case aside, with
    the extension of the path, and an extension holds no dot: a pattern of
    this kind with a dot in it, such as an exact file name, matches no path.
    The pattern [package.json] does not make [a/package.json] eligible, nor
    does the list of the README; [json], [.json], [*.json] and [package.*]
    do. *)
Theorem C3_exact_filename_not_eligible (filePath pattern : string) (patterns : list string) :
  patterns <> [] ->
  (forall q, In q patterns ->
     exists b, matchesPattern filePath (Path.basename filePath) q = Returns b) ->
  (isSupportedFile filePath (Some patterns) = Returns true
   <-> exists q, In q patterns
                 /\ matchesPattern filePath (Path.basename filePath) q = Returns true)
  /\ (Js.includes pattern "*" = false -> Js.startsWith pattern "." = true ->
        matchesPattern filePath (Path.basename filePath) pattern
        = Returns (Js.endsWith filePath pattern))
  /\ (Js.includes pattern "*" = false -> Js.startsWith pattern "." = false ->
        matchesPattern filePath (Path.basename filePath) pattern
        = Returns (Js.eqb (Js.toLowerCase (Js.sliceFrom (Path.extname filePath) 1))
                          (Js.toLowerCase pattern))
        /\ (Js.includes pattern "." = true ->
              isSupportedFile filePath (Some [pattern]) = Returns false))
  /\ isSupportedFile "a/package.json" (Some ["package.json"]) = Returns false
  /\ isSupportedFile "/project/package.json" (Some ["package.json"; "*.config.js"])
     = Returns false
  /\ isSupportedFile "/project/vite.config.js" (Some ["package.json"; "*.config.js"])
     = Returns true
  /\ isSupportedFile "a/package.json" (Some ["json"]) = Returns true
  /\ isSupportedFile "a/package.json" (Some [".json"]) = Returns true
  /\ isSupportedFile "a/package.json" (Some ["*.json"]) = Returns true
  /\ isSupportedFile "a/package.json" (Some ["package.*"]) = Returns true.
Proof.
  intros Hne Hall. split; [| split; [| split]].
  - destruct patterns as [| p ps]; [done |]. cbn [isSupportedFile].
    by apply somePattern_true.
  - intros Hw Hd. unfold matchesPattern. by rewrite Hw, Hd.
  - intros Hw Hd.
    assert (Hm : matchesPattern filePath (Path.basename filePath) pattern
                 = Returns (Js.eqb (Js.toLowerCase (Js.sliceFrom (Path.extname filePath) 1))
                                   (Js.toLowerCase pattern))).
    { unfold matchesPattern. by rewrite Hw, Hd. }
    split; [exact Hm |]. intros Hdot. cbn [isSupportedFile somePattern].
    rewrite Hm. by rewrite dotted_pattern_is_no_extension.
  - repeat split; vm_compute; reflexivity.
Qed.

(** The exact file name of the README example, by the general part: the
    pattern has no wildcard and no leading dot, and holds a dot. *)
Lemma C3_witness :
  isSupportedFile "a/package.json" (Some ["package.json"]) = Returns false.
Proof.
  refine (proj2 (proj1 (proj2 (proj2
            (C3_exact_filename_not_eligible "a/package.json" "package.json"
               ["package.json"] _ _))) eq_refl eq_refl) eq_refl).
  - discriminate.
  - intros q [<- | []]; eexists; vm_compute; reflexivity.
Defined.

(** ** The pattern compiler *)

(** C4, on the code.  The ignore file lists the literal directory name
    [a+b], with and without a trailing separator; the compiled pattern reads
    the plus sign as a repetition, so the directory [a+b] is not reported as
    ignored, at the root or below it, and the walk lists it.  The name [c++]
    compiles to a pattern the engine refuses, and the test throws.  Names
    without such characters, here [out], are ignored at every depth. *)
Theorem C4_literal_name_with_plus_not_ignored :
  parseGitignore (Some ("out" +:+ nl +:+ "a+b/" +:+ nl))
  = ["(^|.*/|^/)out($|/.*)"; "(^|.*/|^/)a+b($|/.*)"]
  /\ shouldIgnore ["project"; "a+b"] true (parseGitignore (Some "a+b")) ["project"]
     = Returns false
  /\ shouldIgnore ["project"; "src"; "a+b"] true (parseGitignore (Some "a+b/")) ["project"]
     = Returns false
  /\ shouldIgnore ["project"; "c++"] true (parseGitignore (Some "c++")) ["project"]
     = Throws (invalidRegExp "(^|.*/|^/)c++($|/.*)")
  /\ shouldIgnore ["project"; "src"; "out"] true (parseGitignore (Some "out/")) ["project"]
     = Returns true
  /\ fst (sampleWalk plusName_root false false "all" 5)
     = [ EntryLine ("├── a+b/" +:+ nl);
         EntryLine ("│   └── x.txt (1 KB)" +:+ nl);
         EntryLine ("└── src/" +:+ nl);
         EntryLine ("    └── a+b/" +:+ nl) ].
Proof. repeat split; vm_compute; reflexivity. Qed.

(** ** The directory walker *)

(** Induction on what a path holds, with the hypothesis for every entry of a
    directory. *)
Lemma FsNode_induction (P : FsNode -> Prop) :
  (forall size content, P (File size content)) ->
  (forall items, Forall (fun e => P (snd e)) items -> P (Dir items)) ->
  forall n, P n.
Proof.
  intros HF HD. fix IH 1. intros [size content | items]; [apply HF |].
  apply HD. induction items as [| [name x] items IHi]; constructor; [apply IH | exact IHi].
Qed.


Section WalkerFacts.

Context {Grammar : Type}.
Variable parse : Grammar -> string -> Error + Node.
Variable initializeTreeSitter : Runtime Grammar -> option Error * Runtime Grammar.

Lemma own_patterns (items : list (string * FsNode)) (w : World Grammar) :
  fst (ownIgnorePatterns items w) = gitignorePatterns items
  /\ codeSymbols (snd (ownIgnorePatterns items w)) = codeSymbols w.
Proof.
  unfold ownIgnorePatterns, gitignorePatterns.
  by destruct (lookupItem ".gitignore" items) as [[] |].
Qed.

Lemma walk_Dir (items : list (string * FsNode)) (dirPath rootPath ignorePatterns : list string)
    (filePatterns : option (list string)) (indent : string) (analyzeJs includeSymbols : bool)
    (symbolType : string) (currentDepth : nat) (maxDepth : Z) (w : World Grammar) :
  getDirectoryTree parse initializeTreeSitter (Dir items) dirPath rootPath ignorePatterns
    filePatterns indent analyzeJs includeSymbols symbolType currentDepth maxDepth w
  = eachItem parse initializeTreeSitter rootPath filePatterns includeSymbols symbolType
      maxDepth dirPath (allPatternsIn items ignorePatterns) indent analyzeJs currentDepth
      (length items)
      (fun item itemPath childIndent shouldAnalyze w =>
         getDirectoryTree parse initializeTreeSitter item itemPath rootPath
           (allPatternsIn items ignorePatterns) filePatterns childIndent shouldAnalyze
           includeSymbols symbolType (currentDepth + 1) maxDepth w)
      items 0 [] (snd (ownIgnorePatterns items w)).
Proof.
  cbn [getDirectoryTree]. pose proof (own_patterns items w) as [E _].
  destruct (ownIgnorePatterns items w) as [newPatterns w']. cbn in E. subst newPatterns.
  reflexivity.
Qed.


Lemma analyzeFile_files (itemPath content childIndent : string) (includeSymbols : bool)
    (symbolType : string) (w : World Grammar) (p : string) :
  p ∈ cs_files (codeSymbols (snd (analyzeFile parse initializeTreeSitter itemPath content
                                    childIndent includeSymbols symbolType w))) ->
  p ∈ cs_files (codeSymbols w) \/ p = itemPath.
Proof.
  unfold analyzeFile.
  destruct (extractCodeSymbols _ _ _ _ _) as [[[symbols |] | e] rt]; cbn; [| by left | by left].
  rewrite elem_of_union, elem_of_singleton. intros [H | H]; [by right | by left].
Qed.

(** *** Analysis is bounded by depth *)

Lemma EntryAt_incl (items items' : list (string * FsNode)) (names : list string)
    (item : FsNode) :
  (forall e, In e items -> In e items') ->
  EntryAt items names item -> EntryAt items' names item.
Proof.
  intros Hincl H. destruct H as [items itemName item Hin | items itemName sub names item Hin H].
  - apply EntryAt_here. by apply Hincl.
  - eapply EntryAt_below; [by apply Hincl | exact H].
Qed.






(** *** What a walk leaves in place *)

Lemma carriesOn_refl (w : World Grammar) : carriesOn w w.
Proof. split; [done | done]. Qed.

Lemma carriesOn_trans (w1 w2 w3 : World Grammar) :
  carriesOn w1 w2 -> carriesOn w2 w3 -> carriesOn w1 w3.
Proof.
  intros [Hr12 Hs12] [Hr23 Hs23]. split.
  - intros Hi. destruct (Hr12 Hi) as [Hi2 El2]. destruct (Hr23 Hi2) as [Hi3 El3].
    split; [done | congruence].
  - intros p Hp. apply Hs23. by apply Hs12.
Qed.

Lemma logged_carriesOn (w : World Grammar) (line : string) : carriesOn w (logged w line).
Proof. split; [done | done]. Qed.

Lemma failed_carriesOn dirPath indent e (w : World Grammar) :
  carriesOn w (snd (failed dirPath indent e w)).
Proof. apply logged_carriesOn. Qed.

Lemma own_carriesOn (items : list (string * FsNode)) (w : World Grammar) :
  carriesOn w (snd (ownIgnorePatterns items w)).
Proof.
  unfold ownIgnorePatterns.
  destruct (lookupItem ".gitignore" items) as [[] |];
    [apply carriesOn_refl | apply logged_carriesOn | apply carriesOn_refl].
Qed.

Lemma analyzeFile_carriesOn (itemPath content childIndent : string) (includeSymbols : bool)
    (symbolType : string) (w : World Grammar) :
  carriesOn w (snd (analyzeFile parse initializeTreeSitter itemPath content childIndent
                      includeSymbols symbolType w)).
Proof.
  split.
  - intros Hi. unfold analyzeFile. rewrite (extract_initialized _ _ _ _ _ Hi).
    destruct (try_languageInstances parse (runtime w) itemPath content) as [El Ei].
    destruct (fst (extractCodeSymbols_try parse (runtime w) itemPath content));
      cbn; by rewrite El, Ei.
  - unfold analyzeFile.
    destruct (extractCodeSymbols _ _ _ _ _) as [[[symbols |] | e] rt]; cbn; [| done | done].
    intros p Hp. rewrite elem_of_union. by right.
Qed.


Lemma loop_carriesOn rootPath filePatterns includeSymbols symbolType maxDepth dirPath
    allIgnorePatterns indent analyzeJs currentDepth count recur rest :
  (forall itemName item, In (itemName, item) rest ->
     forall itemPath childIndent shouldAnalyze w,
       carriesOn w (snd (recur item itemPath childIndent shouldAnalyze w))) ->
  forall i output w,
    carriesOn w
      (snd (eachItem parse initializeTreeSitter rootPath filePatterns includeSymbols
              symbolType maxDepth dirPath
              allIgnorePatterns indent analyzeJs currentDepth count recur rest i output w)).
Proof.
  induction rest as [| [itemName item] rest IH]; intros Hrec i output w.
  - apply carriesOn_refl.
  - assert (IH' := IH (fun n x H => Hrec n x (or_intror H))). clear IH.
    cbn [eachItem].
    destruct (Js.eqb itemName ".gitignore"); [apply IH' |].
    destruct (Js.startsWith itemName "."); [apply IH' |].
    destruct (shouldIgnore _ _ _ _) as [[] | e]; [apply IH' | | apply failed_carriesOn].
    destruct item as [size content | sub].
    + destruct (analyzeJs && (Z.of_nat currentDepth <=? maxDepth)%Z); [| apply IH'].
      destruct (isSupportedFile _ _) as [[] | e]; [| apply IH' | apply failed_carriesOn].
      match goal with
      | |- context [analyzeFile ?P ?I ?a ?b ?c ?d ?e ?f] =>
          pose proof (analyzeFile_carriesOn a b c d e f) as Hc;
          destruct (analyzeFile P I a b c d e f) as [found w1]
      end.
      eapply carriesOn_trans; [exact Hc | apply IH'].
    + specialize (Hrec itemName (Dir sub) (or_introl eq_refl)).
      match goal with
      | |- context [recur ?a ?b ?c ?d ?e] =>
          specialize (Hrec b c d e); destruct (recur a b c d e) as [out1 w1]
      end.
      eapply carriesOn_trans; [exact Hrec | apply IH'].
Qed.

Lemma walk_carriesOn (target : FsNode) :
  forall dirPath rootPath ignorePatterns filePatterns indent analyzeJs includeSymbols
         symbolType currentDepth maxDepth w,
    carriesOn w
      (snd (getDirectoryTree parse initializeTreeSitter target dirPath rootPath
              ignorePatterns filePatterns indent analyzeJs
              includeSymbols symbolType currentDepth maxDepth w)).
Proof.
  induction target as [size content | items IH] using FsNode_induction; intros.
  - apply failed_carriesOn.
  - rewrite walk_Dir.
    eapply carriesOn_trans; [apply own_carriesOn | apply loop_carriesOn].
    intros itemName item Hin itemPath childIndent shouldAnalyze w0.
    rewrite Forall_forall in IH. apply list_elem_of_In in Hin.
    apply (IH _ Hin).
Qed.

(** *** Without analysis *)



(** *** Beyond the depth *)


(** *** The tree text does not depend on the analysis *)





(** *** Every entry that is shown has its line *)

Lemma hidden_false (itemName : string) :
  hidden itemName = false ->
  Js.eqb itemName ".gitignore" = false /\ Js.startsWith itemName "." = false.
Proof. unfold hidden. apply orb_false_iff. Qed.







(** *** Within the depth, a file is analyzed *)


End WalkerFacts.



(** ** Literal names that the compiler handles *)

Lemma chars_append (a b : string) : Js.chars (a +:+ b) = Js.chars a ++ Js.chars b.
Proof.
  induction a as [| c a IH]; [done |].
  change (String c a +:+ b) with (String c (a +:+ b)).
  cbn [list_ascii_of_string]. by rewrite IH.
Qed.

Lemma str_app (a b : list ascii) : Js.str (a ++ b) = Js.str a +:+ Js.str b.
Proof.
  induction a as [| c a IH]; [done |].
  cbn [app string_of_list_ascii]. rewrite IH. reflexivity.
Qed.

Lemma dropWhile_none {A} (f : A -> bool) (l : list A) :
  (forall x, In x l -> f x = false) -> Js.dropWhile f l = l.
Proof. destruct l as [| x l]; [done |]. intros H. cbn. by rewrite (H x (or_introl eq_refl)). Qed.

Lemma replaceAllFrom_absent (lit rep s : list ascii) :
  Js.includesl s lit = false -> Js.replaceAllFrom lit rep 0 s = s.
Proof.
  induction s as [| c s IH]; [done |]. cbn [Js.includesl Js.replaceAllFrom].
  intros H. apply orb_false_iff in H as [-> H]. by rewrite IH.
Qed.

Lemma prefixb_head (c : ascii) (lit s : list ascii) :
  ~ In c s -> Js.prefixb (c :: lit) s = false.
Proof.
  destruct s as [| x s]; [done |]. cbn. intros H.
  destruct (ascii_dec c x) as [-> | _]; [| done]. tauto.
Qed.

Lemma includesl_head_absent (c : ascii) (lit s : list ascii) :
  ~ In c s -> Js.includesl s (c :: lit) = false.
Proof.
  induction s as [| x s IH]; intros H; [done |].
  cbn [Js.includesl]. rewrite prefixb_head by done. cbn. apply IH. cbn in H. tauto.
Qed.

(** Replacing a character no string holds changes nothing. *)
Lemma replaceAll_absent (s lit rep : string) (c : ascii) (l : list ascii) :
  Js.chars lit = c :: l -> ~ In c (Js.chars s) -> Js.replaceAll s lit rep = s.
Proof.
  intros El H. unfold Js.replaceAll. rewrite El.
  rewrite replaceAllFrom_absent by (by apply includesl_head_absent). apply str_chars.
Qed.

Lemma replaceAll_dots (s : string) :
  Js.replaceAll s "." "\." = Js.str (escapeDots (Js.chars s)).
Proof.
  unfold Js.replaceAll. cbn [Js.chars list_ascii_of_string]. f_equal.
  induction (Js.chars s) as [| c l IH]; [done |].
  cbn [Js.replaceAllFrom Js.prefixb escapeDots flat_map]. unfold Path.isDot.
  destruct (ascii_dec "." c) as [<- | Hne].
  - destruct (ascii_dec "." ".") as [_ | []]; [| done]. cbn. by rewrite IH.
  - destruct (ascii_dec c ".") as [-> | _]; [done |]. cbn. by rewrite IH.
Qed.

Lemma escapeDots_In (c : ascii) (l : list ascii) :
  In c (escapeDots l) -> c = "\"%char \/ In c l.
Proof.
  unfold escapeDots. rewrite in_flat_map. intros (x & Hx & Hc).
  destruct (Path.isDot x) eqn:E.
  - unfold Path.isDot in E. destruct (ascii_dec x ".") as [-> | _]; [| done].
    destruct Hc as [<- | [<- | []]]; auto.
  - destruct Hc as [<- | []]. auto.
Qed.

(** A marker without dot and backslash is found after the escaping only
    where it was before. *)
Lemma prefixb_escapeDots (lit l : list ascii) :
  ~ In "."%char lit -> ~ In "\"%char lit ->
  Js.prefixb lit (escapeDots l) = true -> Js.prefixb lit l = true.
Proof.
  revert l. induction lit as [| a lit IH]; intros l Hd Hb; [done |].
  destruct l as [| c l]; [done |]. cbn [escapeDots flat_map].
  destruct (Path.isDot c) eqn:E; cbn [app Js.prefixb].
  - destruct (ascii_dec a "\") as [-> | _]; [| done]. cbn in Hb. tauto.
  - destruct (ascii_dec a c) as [_ | _]; [| done].
    apply IH; cbn in Hd, Hb; tauto.
Qed.

Lemma includesl_escapeDots (lit l : list ascii) :
  lit <> [] -> ~ In "."%char lit -> ~ In "\"%char lit ->
  Js.includesl l lit = false -> Js.includesl (escapeDots l) lit = false.
Proof.
  intros Hne Hd Hb. induction l as [| c l IH]; [done |].
  cbn [Js.includesl]. intros H. apply orb_false_iff in H as [Hp H].
  specialize (IH H).
  assert (Hhere : Js.prefixb lit (escapeDots (c :: l)) = false).
  { destruct (Js.prefixb lit (escapeDots (c :: l))) eqn:E; [| done].
    apply prefixb_escapeDots in E; [congruence | done | done]. }
  cbn [escapeDots flat_map] in *. destruct (Path.isDot c); cbn [app] in *.
  - cbn [Js.includesl]. rewrite Hhere. cbn [orb].
    destruct lit as [| a lit]; [done |].
    assert (a <> "."%char) by (intros ->; apply Hd; by left).
    cbn [Js.prefixb]. destruct (ascii_dec a "."); [done |]. exact IH.
  - cbn [Js.includesl]. by rewrite Hhere.
Qed.

Lemma plainName_facts (name : string) :
  plainName name = true ->
  name <> EmptyString
  /\ (forall c, In c (Js.chars name) -> nameChar c = true)
  /\ Js.includesl (Js.chars name) (Js.chars "__DOUBLE_STAR__") = false.
Proof.
  unfold plainName. intros H. apply andb_true_iff in H as [H Hm].
  apply andb_true_iff in H as [Ht Hall]. split; [by destruct name |]. split.
  - intros c Hc. rewrite forallb_forall in Hall. by apply Hall.
  - by apply negb_true_iff in Hm.
Qed.

Lemma absent_from_name (name : string) (x : ascii) :
  (forall c, In c (Js.chars name) -> nameChar c = true) -> nameChar x = false ->
  ~ In x (Js.chars name).
Proof. intros Hall Hx Hin. apply Hall in Hin. congruence. Qed.

Lemma absent_from_escaped (name : string) (x : ascii) :
  (forall c, In c (Js.chars name) -> nameChar c = true) -> nameChar x = false ->
  x <> "\"%char ->
  ~ In x (Js.chars (Js.str (escapeDots (Js.chars name)))).
Proof.
  intros Hall Hx Hb. rewrite chars_str. intros Hin.
  apply escapeDots_In in Hin as [-> | Hin]; [done |]. by apply (absent_from_name name x).
Qed.

Lemma stripTrailingSlashes_plain (name : string) :
  (forall c, In c (Js.chars name) -> nameChar c = true) ->
  Js.stripTrailingSlashes name = name
  /\ Js.stripTrailingSlashes (name +:+ "/") = name.
Proof.
  intros Hall.
  assert (Hrev : Js.dropWhile Js.isSlash (rev (Js.chars name)) = rev (Js.chars name)).
  { apply dropWhile_none. intros x Hx. apply in_rev in Hx. apply Hall in Hx.
    unfold Js.isSlash. destruct (ascii_dec x "/") as [-> | _]; [discriminate Hx | done]. }
  unfold Js.stripTrailingSlashes, Js.dropWhileEnd. split.
  - by rewrite Hrev, rev_involutive, str_chars.
  - rewrite chars_append, rev_app_distr. cbn [Js.chars list_ascii_of_string rev app].
    cbn [Js.dropWhile]. change (Js.isSlash "/") with true. cbn beta iota.
    by rewrite Hrev, rev_involutive, str_chars.
Qed.

(** The pattern compiled for a plain name, with or without the trailing
    separator. *)
Lemma compilePattern_plain (name line : string) :
  plainName name = true -> name <> "node_modules" ->
  line = name \/ line = name +:+ "/" ->
  compilePattern line
  = "(^|.*/|^/)" +:+ Js.str (escapeDots (Js.chars name)) +:+ "($|/.*)".
Proof.
  intros Hp Hnm Hline. destruct (plainName_facts name Hp) as (Hne & Hall & Hmark).
  destruct (stripTrailingSlashes_plain name Hall) as [Hs1 Hs2].
  assert (Hstrip : Js.stripTrailingSlashes line = name) by (destruct Hline; by subst).
  assert (Hslash : ~ In "/"%char (Js.chars name)) by (by apply absent_from_name).
  assert (Hn1 : Js.eqb line "node_modules" = false).
  { apply eqb_false. intros E. destruct Hline as [-> | ->]; [done |].
    apply (f_equal Js.chars) in E. rewrite chars_append in E.
    assert (Hin : In "/"%char (Js.chars "node_modules")).
    { rewrite <- E. apply in_or_app. right. by left. }
    vm_compute in Hin. intuition discriminate. }
  assert (Hn2 : Js.eqb line "node_modules/" = false).
  { apply eqb_false. intros E. destruct Hline as [-> | ->].
    - apply Hslash. rewrite E. vm_compute. tauto.
    - apply Hnm. apply (f_equal Js.chars) in E. rewrite chars_append in E.
      change (Js.chars "node_modules/") with (Js.chars "node_modules" ++ Js.chars "/") in E.
      apply app_inv_tail in E. rewrite <- (str_chars name), E. reflexivity. }
  assert (Hlead : Js.startsWith name "/" = false).
  { unfold Js.startsWith. destruct name as [| c rest]; [reflexivity |].
    cbn [String.prefix].
    destruct (ascii_dec "/" c) as [<- | _]; [| reflexivity].
    exfalso. apply Hslash. by left. }
  unfold compilePattern. rewrite Hn1, Hn2, Hstrip, Hlead. cbn [orb].
  rewrite replaceAll_dots.
  set (escaped := Js.str (escapeDots (Js.chars name))).
  assert (Habs : forall x, nameChar x = false -> x <> "\"%char ->
                           ~ In x (Js.chars escaped))
    by (intros x; by apply absent_from_escaped).
  rewrite (replaceAll_absent escaped "**" _ "*"%char ["*"%char]) by (done || by apply Habs).
  rewrite (replaceAll_absent escaped "*" _ "*"%char []) by (done || by apply Habs).
  assert (Hmarker : Js.replaceAll escaped "__DOUBLE_STAR__" ".*" = escaped).
  { unfold Js.replaceAll.
    change (Js.chars "__DOUBLE_STAR__") with ("_"%char :: Js.chars "_DOUBLE_STAR__").
    cbv beta iota. rewrite replaceAllFrom_absent; [apply str_chars |].
    unfold escaped. rewrite chars_str. apply includesl_escapeDots; try done.
    - vm_compute. intuition discriminate.
    - vm_compute. intuition discriminate. }
  rewrite Hmarker.
  rewrite (replaceAll_absent escaped "?" _ "?"%char []) by (done || by apply Habs).
  rewrite (replaceAll_absent escaped "/" _ "/"%char []) by (done || by apply Habs).
  reflexivity.
Qed.

Lemma run_app (ps : RegExp.PState) (a b : list ascii) :
  RegExp.run ps (a ++ b) = RegExp.run ps a ≫= fun ps' => RegExp.run ps' b.
Proof.
  revert ps. induction a as [| c a IH]; intros ps; [done |].
  cbn [app RegExp.run]. destruct (RegExp.step ps c); [apply IH | done].
Qed.

Lemma stepNormal_plain (st : list RegExp.Frame) (c : ascii) :
  plainChar c = true ->
  RegExp.stepNormal st c = RegExp.pushAtom st (RegExp.Chr c) RegExp.Fresh.
Proof.
  intros H. unfold RegExp.stepNormal.
  repeat match goal with
    | |- context [ascii_dec c ?x] => destruct (ascii_dec c x) as [-> | _]; [discriminate H |]
    end.
  reflexivity.
Qed.

(** The characters of a name, dots escaped, are read as themselves. *)
Lemma run_escaped (al : list RegExp.Re) (rest : list RegExp.Frame) (l : list ascii) :
  (forall c, In c l -> nameChar c = true) ->
  forall ats,
    RegExp.run (RegExp.mkPState (RegExp.mkFrame al ats :: rest) RegExp.Normal) (escapeDots l)
    = Some (RegExp.mkPState
              (RegExp.mkFrame al (rev (map (fun c => (RegExp.Chr c, RegExp.Fresh)) l) ++ ats)
               :: rest)
              RegExp.Normal).
Proof.
  induction l as [| c l IH]; intros Hall ats; [done |].
  assert (Hl : forall x, In x l -> nameChar x = true) by (intros x Hx; apply Hall; by right).
  pose proof (Hall c (or_introl eq_refl)) as Hc.
  cbn [escapeDots flat_map map rev]. rewrite <- app_assoc. cbn [app].
  fold (escapeDots l). unfold nameChar in Hc. destruct (Path.isDot c) eqn:Ed.
  - unfold Path.isDot in Ed. destruct (ascii_dec c ".") as [-> | _]; [| done].
    cbn [app RegExp.run RegExp.step RegExp.mode RegExp.stack].
    change (RegExp.stepNormal (RegExp.mkFrame al ats :: rest) "\")
      with (Some (RegExp.mkPState (RegExp.mkFrame al ats :: rest) RegExp.Escape)).
    cbn [RegExp.step RegExp.mode RegExp.stack].
    change (RegExp.escapeAtom ".") with (Some (RegExp.Chr ".")).
    cbn [RegExp.pushAtom RegExp.alts RegExp.atoms]. by rewrite IH.
  - rewrite orb_false_r in Hc.
    cbn [app RegExp.run RegExp.step RegExp.mode RegExp.stack].
    rewrite (stepNormal_plain _ c Hc). cbn [RegExp.pushAtom RegExp.alts RegExp.atoms].
    by rewrite IH.
Qed.

Lemma compile_literal (l : list ascii) :
  (forall c, In c l -> nameChar c = true) ->
  RegExp.compile ("(^|.*/|^/)" +:+ Js.str (escapeDots l) +:+ "($|/.*)")
  = Some (literalRe l).
Proof.
  intros Hall. unfold RegExp.compile. rewrite !chars_append, chars_str, !run_app.
  change (RegExp.run RegExp.start (Js.chars "(^|.*/|^/)"))
    with (Some (RegExp.mkPState [RegExp.mkFrame [] [(startGroup, RegExp.Fresh)]]
                  RegExp.Normal)).
  cbn [mbind option_bind]. rewrite run_app, (run_escaped _ _ _ Hall).
  cbn [mbind option_bind].
  cbn. unfold literalRe, RegExp.frameRe, RegExp.frameSeq. cbn. f_equal.
  rewrite map_app, !rev_app_distr. cbn. rewrite map_rev, rev_involutive, map_map. cbn.
  reflexivity.
Qed.

Lemma accepts_chars (l : list ascii) (rest : list RegExp.Re) (pos : nat) (s : list ascii)
    (k : nat -> list ascii -> bool) :
  RegExp.accepts (RegExp.seqOf (map RegExp.Chr l ++ rest)) pos (l ++ s) k
  = RegExp.accepts (RegExp.seqOf rest) (pos + length l) s k.
Proof.
  revert pos. induction l as [| c l IH]; intros pos.
  - cbn. by rewrite Nat.add_0_r.
  - cbn [map app RegExp.seqOf fold_right RegExp.accepts length].
    destruct (ascii_dec c c) as [_ | []]; [| done].
    fold (RegExp.seqOf (map RegExp.Chr l ++ rest)). rewrite IH. f_equal. lia.
Qed.

(** The pattern of a name matches the name. *)
Lemma test_literal (l : list ascii) : RegExp.test (literalRe l) (Js.str l) = true.
Proof.
  unfold RegExp.test. rewrite chars_str.
  assert (H : RegExp.accepts (literalRe l) 0 l (fun _ _ => true) = true).
  { unfold literalRe. cbn [RegExp.seqOf fold_right].
    fold (RegExp.seqOf (map RegExp.Chr l ++ [endGroup])).
    cbn [RegExp.accepts startGroup Nat.eqb]. 
    rewrite <- (app_nil_r l) at 2. rewrite accepts_chars. reflexivity. }
  destruct l; cbn [RegExp.searchFrom]; by rewrite H.
Qed.

Lemma someIgnores_reaches (before after : list string) (pattern pathToCheck itemName : string) :
  Forall (fun p => is_Some (RegExp.compile p)) before ->
  (exists re, RegExp.compile pattern = Some re /\ RegExp.test re itemName = true) ->
  someIgnores (before ++ pattern :: after) pathToCheck itemName = Returns true.
Proof.
  intros Hb (re & Hc & Ht). induction Hb as [| p before [r Hr] _ IH]; cbn [app someIgnores].
  - by rewrite Hc, Ht, orb_true_r.
  - rewrite Hr. by destruct (RegExp.test r pathToCheck || RegExp.test r itemName).
Qed.

(** A plain directory name listed in an ignore file, with or without the
    trailing separator, is reported as ignored wherever the candidate of
    that name lies, provided the patterns tried before it are accepted by
    the engine. *)
Lemma plain_name_ignored (before after : list string) (name line : string)
    (itemPath rootPath : list string) (isDir : bool) :
  plainName name = true ->
  line = name \/ line = name +:+ "/" ->
  Forall (fun p => is_Some (RegExp.compile p)) before ->
  List.last itemPath EmptyString = name ->
  shouldIgnore itemPath isDir (before ++ compilePattern line :: after) rootPath
  = Returns true.
Proof.
  intros Hp Hline Hb Hlast.
  assert (Hsome : someIgnores (before ++ compilePattern line :: after)
                    (if isDir
                     then Js.replaceAll (Path.relative rootPath itemPath) "\" "/" +:+ "/"
                     else Js.replaceAll (Path.relative rootPath itemPath) "\" "/")
                    name = Returns true).
  { apply someIgnores_reaches; [done |].
    destruct (string_dec name "node_modules") as [-> | Hnm].
    - assert (compilePattern line = "^node_modules($|/)") as ->
        by (destruct Hline as [-> | ->]; reflexivity).
      eexists. split; vm_compute; reflexivity.
    - rewrite (compilePattern_plain name line Hp Hnm Hline).
      destruct (plainName_facts name Hp) as (_ & Hall & _).
      exists (literalRe (Js.chars name)). split; [by apply compile_literal |].
      rewrite <- (str_chars name) at 2. apply test_literal. }
  unfold shouldIgnore. rewrite Hlast.
  destruct (before ++ compilePattern line :: after) eqn:E; [by destruct before |].
  exact Hsome.
Qed.

(* ================================================================== *)
(** * Further properties of the extractor *)
(* ================================================================== *)

(** A node of the walk other than its start is the child of a node of the
    walk. *)
Lemma descendants_parent (r n : SyntaxNode) :
  In n (descendants r) ->
  n = r \/ exists p, In p (descendants r) /\ In n (children p).
Proof.
  destruct r as [h sibs up]. revert sibs up n.
  induction h as [t nm tx s e cs IH] using Node_induction. intros sibs up n H.
  set (r := mkSyntaxNode (mkNode t nm tx s e cs) sibs up) in *.
  rewrite descendants_unfold in H. destruct H as [<- | Hn]; [by left |]. right.
  apply in_flat_map in Hn as (x & Hx & Hn).
  destruct x as [hx sx ux]. pose proof (children_here _ _ Hx) as Hin. cbn in Hin.
  apply in_map_iff in Hin as ([f y] & Ey & Hy). cbn in Ey. subst y.
  rewrite Forall_forall in IH. apply list_elem_of_In in Hy.
  destruct (IH _ Hy sx ux n Hn) as [-> | (p & Hp & Hc)].
  - exists r. split; [apply descendants_self | done].
  - exists p. split; [| done].
    apply (descendants_trans r (mkSyntaxNode hx sx ux) p); [| done].
    apply (descendants_child r r); [apply descendants_self | done].
Qed.

Lemma parent_in_tree (tree : Node) (n p : SyntaxNode) :
  In n (descendants (rootOf tree)) -> parentNode n = Some p ->
  In p (descendants (rootOf tree)).
Proof.
  intros Hn Hp. destruct (descendants_parent _ _ Hn) as [-> | (q & Hq & Hc)]; [done |].
  apply children_parent in Hc. congruence.
Qed.

(** *** The array-callback rule *)

Lemma lowerChar_not_E (c : ascii) : Js.lowerChar c <> "E"%char.
Proof.
  destruct c as [[] [] [] [] [] [] [] []]; vm_compute; discriminate.
Qed.

Lemma prefixb_In (p s : list ascii) (c : ascii) :
  Js.prefixb p s = true -> In c p -> In c s.
Proof.
  revert s. induction p as [| a p IH]; intros s; [done |].
  destruct s as [| b s]; [done |]. cbn.
  destruct (ascii_dec a b) as [-> | _]; [| done].
  intros H [-> | Hc]; [by left | right; by apply IH].
Qed.

Lemma includesl_In (s p : list ascii) (c : ascii) :
  Js.includesl s p = true -> In c p -> In c s.
Proof.
  induction s as [| b s IH]; cbn [Js.includesl]; intros H Hc.
  - rewrite orb_false_r in H. by apply (prefixb_In p []).
  - apply orb_true_iff in H as [H | H]; [by apply (prefixb_In p) | right; by apply IH].
Qed.

(** A lower-cased text never holds [.forEach(], which has a capital. *)
Lemma lowered_has_no_forEach (s : string) :
  Js.includes (Js.toLowerCase s) ".forEach(" = false.
Proof.
  destruct (Js.includes _ _) eqn:E; [| done]. unfold Js.includes, Js.toLowerCase in E.
  rewrite chars_str in E. apply (includesl_In _ _ "E"%char) in E.
  - apply in_map_iff in E as (c & Hc & _). by apply lowerChar_not_E in Hc.
  - vm_compute. tauto.
Qed.

Lemma anonymous_under_call (node parent : SyntaxNode) :
  parentNode node = Some parent ->
  Js.eqb (type parent) "call_expression" || Js.eqb (type parent) "member_expression" = true ->
  inferFunctionName node = "anonymous".
Proof.
  intros Hp Ht. unfold inferFunctionName. rewrite Hp.
  apply orb_true_iff in Ht as [Ht | Ht]; apply eqb_true in Ht; by rewrite Ht.
Qed.

(** X1.  For a function in expression form, whose name is inferred from its
    parent, the rule for callbacks of array methods never decides: the
    function is kept exactly when it is not an arrow function of fewer than
    15 characters and its inferred name is not [anonymous] or its text has
    more than 100 characters.  Under a call or member expression, where the
    rule looks, no name is inferred, and the rule asks for fewer than 50
    characters.  The test for [.forEach(] is made on a lower-cased text and
    never succeeds. *)
Theorem X1_callback_rule_never_decides (node : SyntaxNode) :
  isSignificantFunction node (inferFunctionName node)
  = negb (Js.eqb (type node) "arrow_function" && (Js.length (text node) <? 15))
    && (negb (Js.eqb (inferFunctionName node) "anonymous")
        || (100 <? Js.length (text node)))
  /\ forall s, Js.includes (Js.toLowerCase s) ".forEach(" = false.
Proof.
  split; [| apply lowered_has_no_forEach].
  unfold isSignificantFunction at 1.
  destruct (Js.eqb (type node) "arrow_function" && (Js.length (text node) <? 15)); [done |].
  cbn [negb andb].
  destruct (parentNode node) as [parent |] eqn:Hp; [| done].
  destruct (Js.eqb (type parent) "call_expression"
            || Js.eqb (type parent) "member_expression") eqn:Ht; [| done].
  destruct (Js.length (text node) <? 50) eqn:Hl; [| done]. cbn [andb].
  rewrite (anonymous_under_call node parent Hp Ht).
  assert ((100 <? Js.length (text node)) = false) as ->.
  { apply Nat.ltb_lt in Hl. apply Nat.ltb_ge. lia. }
  change (negb (Js.eqb "anonymous" "anonymous") || false) with false.
  match goal with |- (if ?b then _ else _) = _ => destruct b end; reflexivity.
Qed.

(* ================================================================== *)
(** * Further properties of the records *)
(* ================================================================== *)

(** *** Every record is cut out of the tree *)





(** *** Declarations inside declarations *)

(** X3.  A declarator is recorded once for every declaration it lies below,
    with the kind of that declaration: the declarators of a declaration are
    searched at every depth.  A [let] inside the body of a function bound
    with [const] is recorded twice, as [const] and as [let], and the summary
    counts three variables for the two of the sample. *)
Theorem X3_declarator_recorded_for_every_enclosing_declaration (tree : Node)
    (d v nameNode : SyntaxNode) :
  In d (descendantsOfType (rootOf tree) ["variable_declaration"; "lexical_declaration"]) ->
  In v (descendantsOfType d ["variable_declarator"]) ->
  childForFieldName v "name" = Some nameNode ->
  In (mkVariable (text nameNode) (textOr (childForFieldName d "kind") "var")
        (getPosition v) (text v))
     (variables (extractFromTree jsWasm (rootOf tree)))
  /\ map (fun x => (var_name x, var_kind x))
         (variables (extractFromTree jsWasm (rootOf nestedLet_tree)))
     = [("f", "const"); ("x", "const"); ("x", "let")]
  /\ summaryLine EmptyString (extractFromTree jsWasm (rootOf nestedLet_tree))
     = "└── [Analyzed: 1 functions, 3 variables, 0 classes]" +:+ nl.
Proof.
  intros Hd Hv Hn. split; [| split; vm_compute; reflexivity].
  rewrite extractFromTree_js. cbn [variables]. unfold jsVariables.
  apply in_flat_map. exists d. split; [done |]. unfold jsVariablesOf.
  apply (in_omap_intro _ _ v); [done |]. by rewrite Hn.
Qed.

(** The inner declarator of the sample lies below both declarations. *)
Lemma X3_witness :
  In (mkVariable "x" "const" (mkPosition 1 22 1 27) "x = 1")
     (variables (extractFromTree jsWasm (rootOf nestedLet_tree))).
Proof.
  refine (proj1 (X3_declarator_recorded_for_every_enclosing_declaration nestedLet_tree
                   (firstOfType nestedLet_tree "lexical_declaration")
                   (List.last (descendantsOfType (rootOf nestedLet_tree)
                                 ["variable_declarator"]) (rootOf nestedLet_tree))
                   (List.last (descendantsOfType (rootOf nestedLet_tree) ["identifier"])
                      (rootOf nestedLet_tree)) _ _ _)).
  - vm_compute. tauto.
  - vm_compute. tauto.
  - vm_compute. reflexivity.
Defined.

(** *** The methods of a class *)

(** X4.  The methods of a class record are all the method nodes below the
    class at any depth, named ones only: a method of a class nested in a
    method, or of an object literal inside one, counts for the outer class
    too.  In Python every [def] below a class, a helper defined inside a
    method included, is a method of the class record and, whatever its size,
    a function record as well; the one method of the sample class is both,
    and the summary counts it as a function. *)
Theorem X4_methods_are_all_method_nodes_below (tree : Node)
    (cls inner m className methodName : SyntaxNode) :
  In cls (descendants (rootOf tree)) ->
  childForFieldName cls "name" = Some className ->
  In inner (descendants cls) ->
  In m (descendants inner) ->
  childForFieldName m "name" = Some methodName ->
  (type cls = "class_declaration" -> type m = "method_definition" ->
     In (mkClass (text className) (getPosition cls)
           (omap jsMethodOf (descendantsOfType cls ["method_definition"])) (text cls))
        (classes (extractFromTree jsWasm (rootOf tree)))
     /\ In (mkMethod (text methodName) (getPosition m)
              (textIs (childForFieldName m "static") "static") (text m))
           (omap jsMethodOf (descendantsOfType cls ["method_definition"])))
  /\ (type cls = "class_definition" -> type m = "function_definition" ->
        (exists methods,
           In (mkClass (text className) (getPosition cls) methods (text cls))
              (classes (extractFromTree pyWasm (rootOf tree)))
           /\ exists mr, In mr methods
                /\ m_name mr = text methodName
                /\ m_position mr = getPosition m /\ m_code mr = text m)
        /\ exists fn, In fn (functions (extractFromTree pyWasm (rootOf tree)))
             /\ fn_name fn = text methodName
             /\ fn_position fn = getPosition m /\ fn_code fn = text m)
  /\ map fn_name (functions (extractFromTree pyWasm (rootOf pyClass_tree))) = ["f"]
  /\ map (fun c => (cls_name c, map m_name (cls_methods c)))
         (classes (extractFromTree pyWasm (rootOf pyClass_tree)))
     = [("A", ["f"])]
  /\ summaryLine EmptyString (extractFromTree pyWasm (rootOf pyClass_tree))
     = "└── [Analyzed: 1 functions, 0 variables, 1 classes]" +:+ nl.
Proof.
  intros Hcls Ncls Hinner Hm Nm.
  assert (Hm_cls : In m (descendants cls)) by by apply (descendants_trans cls inner m).
  assert (Hm_root : In m (descendants (rootOf tree)))
    by by apply (descendants_trans (rootOf tree) cls m).
  split; [| split; [| repeat split; vm_compute; reflexivity]].
  - intros Tcls Tm. split.
    + rewrite extractFromTree_js. cbn [classes]. apply (in_omap_intro _ _ cls).
      * apply descendantsOfType_In. split; [done |]. rewrite Tcls. by left.
      * unfold jsClassOf. by rewrite Ncls.
    + apply (in_omap_intro _ _ m).
      * apply descendantsOfType_In. split; [done |]. rewrite Tm. by left.
      * unfold jsMethodOf. by rewrite Nm.
  - intros Tcls Tm. split.
    + eexists. split.
      * rewrite extractFromTree_py. cbn [classes]. apply (in_omap_intro _ _ cls).
        -- apply descendantsOfType_In. split; [done |]. rewrite Tcls. by left.
        -- unfold pyClassOf. rewrite Ncls. reflexivity.
      * eexists. split.
        -- apply (in_omap_intro _ _ m).
           ++ apply descendantsOfType_In. split; [done |]. rewrite Tm. by left.
           ++ unfold pyMethodOf. rewrite Nm. reflexivity.
        -- done.
    + exists (pyFunctionOf m). split.
      * rewrite extractFromTree_py. cbn [functions]. apply in_map.
        apply descendantsOfType_In. split; [done |]. rewrite Tm. by left.
      * unfold pyFunctionOf. by rewrite Nm.
Qed.

(** The method of the sample class: the class, its body as the node in
    between, the definition and its name. *)
Lemma X4_witness :
  exists fn, In fn (functions (extractFromTree pyWasm (rootOf pyClass_tree)))
    /\ fn_name fn = "f"
    /\ fn_position fn = mkPosition 2 4 2 21 /\ fn_code fn = "def f(self): pass".
Proof.
  refine (proj2 (proj1 (proj2
            (X4_methods_are_all_method_nodes_below pyClass_tree
               (firstOfType pyClass_tree "class_definition")
               (firstOfType pyClass_tree "block")
               (firstOfType pyClass_tree "function_definition")
               (firstOfType pyClass_tree "identifier")
               (List.nth 1 (descendantsOfType (rootOf pyClass_tree) ["identifier"])
                  (rootOf pyClass_tree)) _ _ _ _ _)) eq_refl eq_refl)).
  - vm_compute. tauto.
  - vm_compute. reflexivity.
  - vm_compute. tauto.
  - vm_compute. tauto.
  - vm_compute. reflexivity.
Defined.

(* ================================================================== *)
(** * Further properties of the ignore rules and the classifier *)
(* ================================================================== *)

(** *** What is ignored stays ignored *)

Lemma someIgnores_app (patterns later : list string) (pathToCheck itemName : string) :
  someIgnores patterns pathToCheck itemName = Returns true ->
  someIgnores (patterns ++ later) pathToCheck itemName = Returns true.
Proof.
  induction patterns as [| p ps IH]; cbn [app someIgnores]; [discriminate |].
  destruct (RegExp.compile p) as [re |]; [| done].
  by destruct (RegExp.test re pathToCheck || RegExp.test re itemName).
Qed.

Lemma shouldIgnore_app (itemPath : list string) (isDir : bool)
    (patterns later rootPath : list string) :
  shouldIgnore itemPath isDir patterns rootPath = Returns true ->
  shouldIgnore itemPath isDir (patterns ++ later) rootPath = Returns true.
Proof.
  unfold shouldIgnore. destruct patterns as [| p ps]; [discriminate |].
  cbn [app]. apply (someIgnores_app (p :: ps)).
Qed.

(** X5.  Patterns are tried in order and the first match decides, so a
    candidate that the patterns so far report as ignored is reported as
    ignored whatever patterns follow, even patterns the engine refuses.  An
    entry ignored by the default rules and the rules inherited from the
    directories above stays ignored whatever the ignore file of its own
    directory holds: there is no line that takes an entry back in.  After
    the line [out] the line [!out] changes nothing. *)
Theorem X5_later_patterns_cannot_unignore (itemPath : list string) (isDir : bool)
    (patterns later rootPath ignorePatterns : list string) (items : list (string * FsNode)) :
  (shouldIgnore itemPath isDir patterns rootPath = Returns true ->
   shouldIgnore itemPath isDir (patterns ++ later) rootPath = Returns true)
  /\ (shouldIgnore itemPath isDir (defaultIgnorePatterns ++ ignorePatterns) rootPath
      = Returns true ->
      shouldIgnore itemPath isDir (allPatternsIn items ignorePatterns) rootPath
      = Returns true)
  /\ shouldIgnore ["project"; "out"] true
       (defaultIgnorePatterns ++ parseGitignore (Some ("out" +:+ nl +:+ "!out" +:+ nl)))
       ["project"]
     = Returns true
  /\ shouldIgnore ["project"; "out"] true
       (defaultIgnorePatterns ++ parseGitignore (Some ("out" +:+ nl +:+ "c++" +:+ nl)))
       ["project"]
     = Returns true.
Proof.
  split; [apply shouldIgnore_app |]. split; [| split; vm_compute; reflexivity].
  unfold allPatternsIn. rewrite app_assoc. apply shouldIgnore_app.
Qed.

(** The directory [node_modules] of the root, ignored by the first default
    rule, with the patterns of an ignore file after the default rules. *)
Lemma X5_witness :
  shouldIgnore ["project"; "node_modules"] true
    (defaultIgnorePatterns ++ parseGitignore (Some ("!node_modules" +:+ nl))) ["project"]
  = Returns true.
Proof.
  refine (proj1 (X5_later_patterns_cannot_unignore ["project"; "node_modules"] true
                   defaultIgnorePatterns (parseGitignore (Some ("!node_modules" +:+ nl)))
                   ["project"] [] []) _).
  vm_compute. reflexivity.
Defined.

(** *** The default rules *)

(** A default rule the engine accepts either reports the candidate as
    ignored or hands over to the rules after it. *)
Lemma someIgnores_default_step (pattern : string) (re : RegExp.Re) (rest : list string)
    (pathToCheck itemName : string) :
  RegExp.compile pattern = Some re ->
  someIgnores rest pathToCheck itemName = Returns true ->
  someIgnores (pattern :: rest) pathToCheck itemName = Returns true.
Proof.
  intros Hc Hr. cbn [someIgnores]. rewrite Hc.
  by destruct (RegExp.test re pathToCheck || RegExp.test re itemName).
Qed.

Lemma someIgnores_name_match (pattern : string) (re : RegExp.Re) (rest : list string)
    (pathToCheck itemName : string) :
  RegExp.compile pattern = Some re -> RegExp.test re itemName = true ->
  someIgnores (pattern :: rest) pathToCheck itemName = Returns true.
Proof. intros Hc Ht. cbn [someIgnores]. by rewrite Hc, Ht, orb_true_r. Qed.

Lemma default_name_ignored (itemPath rootPath more : list string) (isDir : bool)
    (name : string) :
  In name defaultNames ->
  List.last itemPath EmptyString = name ->
  shouldIgnore itemPath isDir (defaultIgnorePatterns ++ more) rootPath = Returns true.
Proof.
  intros Hin Hlast. apply shouldIgnore_app. unfold shouldIgnore, defaultIgnorePatterns.
  rewrite Hlast.
  destruct Hin as [<- | [<- | [<- | [<- | []]]]];
    repeat first
      [ eapply someIgnores_name_match; [vm_compute; reflexivity | vm_compute; reflexivity]
      | eapply someIgnores_default_step; [vm_compute; reflexivity |] ].
Qed.

(** X6.  The default rules for [node_modules], [dist], [build] and
    [coverage] are anchored to the start of the candidate, and the candidate
    is the path relative to the root and also the bare name: an entry with
    one of these names is ignored at every depth, not at the root only.
    The rule for [.git] has a dot that is not escaped: it ignores every
    entry whose name is one character followed by [git]. *)
Theorem X6_default_names_ignored_at_every_depth (itemPath rootPath more : list string)
    (isDir : bool) (name : string) (c : ascii) :
  (In name ["node_modules"; "dist"; "build"; "coverage"] ->
   List.last itemPath EmptyString = name ->
   shouldIgnore itemPath isDir (defaultIgnorePatterns ++ more) rootPath = Returns true)
  /\ (RegExp.isLineTerminator c = false ->
      List.last itemPath EmptyString = String c "git" ->
      shouldIgnore itemPath isDir (defaultIgnorePatterns ++ more) rootPath = Returns true).
Proof.
  split; [apply default_name_ignored |].
  intros Hc Hlast. apply shouldIgnore_app. unfold shouldIgnore, defaultIgnorePatterns.
  rewrite Hlast.
  eapply someIgnores_default_step; [vm_compute; reflexivity |].
  eapply someIgnores_name_match; [vm_compute; reflexivity |].
  destruct c as [[] [] [] [] [] [] [] []]; first [discriminate Hc | vm_compute; reflexivity].
Qed.

(** A directory [build] three levels down, and a file called [agit]. *)
Lemma X6_witness :
  shouldIgnore ["project"; "packages"; "ui"; "build"] true defaultIgnorePatterns ["project"]
  = Returns true
  /\ shouldIgnore ["project"; "src"; "agit"] false defaultIgnorePatterns ["project"]
     = Returns true.
Proof.
  split.
  - refine (eq_trans (f_equal (fun l => shouldIgnore _ _ l _) (eq_sym (app_nil_r _)))
              (proj1 (X6_default_names_ignored_at_every_depth
                        ["project"; "packages"; "ui"; "build"] ["project"] [] true
                        "build" "a") _ eq_refl)).
    vm_compute. tauto.
  - refine (eq_trans (f_equal (fun l => shouldIgnore _ _ l _) (eq_sym (app_nil_r _)))
              (proj2 (X6_default_names_ignored_at_every_depth
                        ["project"; "src"; "agit"] ["project"] [] false
                        "build" "a") eq_refl eq_refl)).
Defined.

(** *** Plain names in an ignore file *)

(** X7.  A line of an ignore file that is a plain name, made of letters,
    digits, [_], [-] and dots, with or without a trailing separator, makes
    every entry of that name ignored, file or directory, at every depth
    below the root, provided the patterns tried before it are accepted by
    the engine. *)
Theorem X7_plain_name_ignored_at_every_depth (before after : list string)
    (name line : string) (itemPath rootPath : list string) (isDir : bool) :
  plainName name = true ->
  line = name \/ line = name +:+ "/" ->
  Forall (fun p => is_Some (RegExp.compile p)) before ->
  List.last itemPath EmptyString = name ->
  shouldIgnore itemPath isDir (before ++ compilePattern line :: after) rootPath
  = Returns true.
Proof. apply plain_name_ignored. Qed.

Lemma X7_witness :
  shouldIgnore ["project"; "src"; "lib"; "my-cache.v2"] true
    ([] ++ compilePattern "my-cache.v2/" :: []) ["project"]
  = Returns true.
Proof.
  refine (X7_plain_name_ignored_at_every_depth [] [] "my-cache.v2" "my-cache.v2/"
            ["project"; "src"; "lib"; "my-cache.v2"] ["project"] true _ _ _ _).
  - vm_compute. reflexivity.
  - right. reflexivity.
  - constructor.
  - reflexivity.
Defined.

(** *** Eligibility without patterns *)

(** X8.  Without file patterns, and with an empty list of them, a file is
    eligible when a grammar is known for its extension, letter case aside,
    and also when its extension is [constructor] or [__proto__], names that
    the membership test finds on every object; for these two no grammar is
    known. *)
Theorem X8_default_eligibility_is_a_known_grammar (filePath : string) :
  let ext := Js.toLowerCase (Js.sliceFrom (Path.extname filePath) 1) in
  isSupportedFile filePath None
  = Returns (match getLanguageFromExtension filePath with
             | Some _ => true
             | None => Js.eqb ext "constructor" || Js.eqb ext "__proto__"
             end)
  /\ isSupportedFile filePath (Some []) = isSupportedFile filePath None
  /\ isSupportedFile "src/App.TSX" None = Returns true
  /\ isSupportedFile "notes.constructor" None = Returns true
  /\ getLanguageFromExtension "notes.constructor" = None
  /\ isSupportedFile "README.md" None = Returns false.
Proof.
  intros ext. subst ext. split; [| repeat split; vm_compute; reflexivity].
  cbn [isSupportedFile]. unfold inSupportedLanguages, getLanguageFromExtension.
  destruct (assoc _ SUPPORTED_LANGUAGES); [done |].
  unfold Js.inList. cbn [existsb]. by rewrite orb_false_r.
Qed.

(** *** The default rules for suffixes *)

Lemma search_suffix (re : RegExp.Re) (suffix : list ascii) :
  (forall pos, RegExp.accepts re pos suffix (fun _ _ => true) = true) ->
  forall stem pos, RegExp.searchFrom re pos (stem ++ suffix) = true.
Proof.
  intros H. induction stem as [| c stem IH]; intros pos.
  - cbn [app]. destruct suffix; cbn [RegExp.searchFrom]; by rewrite H.
  - cbn [app RegExp.searchFrom]. rewrite IH. apply orb_true_r.
Qed.

Lemma test_suffix (re : RegExp.Re) (stem suffix : string) :
  (forall pos, RegExp.accepts re pos (Js.chars suffix) (fun _ _ => true) = true) ->
  RegExp.test re (stem +:+ suffix) = true.
Proof.
  intros H. unfold RegExp.test. rewrite chars_append. by apply search_suffix.
Qed.

(** X14.  The default rules for the suffixes [.log], [.tmp], [.temp],
    [.swp] and [.DS_Store] are tested on the bare name too: every entry
    whose name ends with one of them, file or directory, is ignored at every
    depth, whatever other patterns are in force. *)
Theorem X14_default_suffixes_ignored_at_every_depth (itemPath rootPath more : list string)
    (isDir : bool) (stem suffix : string) :
  In suffix [".log"; ".tmp"; ".temp"; ".swp"; ".DS_Store"] ->
  List.last itemPath EmptyString = stem +:+ suffix ->
  shouldIgnore itemPath isDir (defaultIgnorePatterns ++ more) rootPath = Returns true.
Proof.
  intros Hin Hlast. apply shouldIgnore_app. unfold shouldIgnore, defaultIgnorePatterns.
  rewrite Hlast.
  destruct Hin as [<- | [<- | [<- | [<- | [<- | []]]]]];
    repeat first
      [ eapply someIgnores_name_match;
          [vm_compute; reflexivity | apply test_suffix; intros pos; reflexivity]
      | eapply someIgnores_default_step; [vm_compute; reflexivity |] ].
Qed.

(** A log file two levels down. *)
Lemma X14_witness :
  shouldIgnore ["project"; "server"; "logs"; "access.log"] false defaultIgnorePatterns
    ["project"]
  = Returns true.
Proof.
  refine (eq_trans (f_equal (fun l => shouldIgnore _ _ l _) (eq_sym (app_nil_r _)))
            (X14_default_suffixes_ignored_at_every_depth
               ["project"; "server"; "logs"; "access.log"] ["project"] [] false
               "access" ".log" _ eq_refl)).
  vm_compute. tauto.
Defined.

(* ================================================================== *)
(** * Further properties of the walker *)
(* ================================================================== *)

Section WalkerInvariants.

Context {Grammar : Type}.
Variable parse : Grammar -> string -> Error + Node.

(** *** A failure takes the place of the text of its directory *)




(** *** The parser runtime is initialized once *)

Lemma analyzeFile_initialized init1 init2 (itemPath content childIndent : string)
    (includeSymbols : bool) (symbolType : string) (w : World Grammar) :
  initialized (runtime w) = true ->
  analyzeFile parse init1 itemPath content childIndent includeSymbols symbolType w
  = analyzeFile parse init2 itemPath content childIndent includeSymbols symbolType w.
Proof.
  intros Hi. unfold analyzeFile. by rewrite !(extract_initialized _ _ _ _ _ Hi).
Qed.

Lemma loop_initialized init1 init2 rootPath filePatterns includeSymbols symbolType maxDepth
    dirPath allIgnorePatterns indent analyzeJs currentDepth count recur1 recur2 rest :
  (forall itemName item, In (itemName, item) rest ->
     forall itemPath childIndent shouldAnalyze (w : World Grammar),
       initialized (runtime w) = true ->
       recur1 item itemPath childIndent shouldAnalyze w
       = recur2 item itemPath childIndent shouldAnalyze w) ->
  (forall itemName item, In (itemName, item) rest ->
     forall itemPath childIndent shouldAnalyze w,
       carriesOn w (snd (recur1 item itemPath childIndent shouldAnalyze w))) ->
  forall i output w,
    initialized (runtime w) = true ->
    eachItem parse init1 rootPath filePatterns includeSymbols symbolType maxDepth dirPath
      allIgnorePatterns indent analyzeJs currentDepth count recur1 rest i output w
    = eachItem parse init2 rootPath filePatterns includeSymbols symbolType maxDepth dirPath
        allIgnorePatterns indent analyzeJs currentDepth count recur2 rest i output w.
Proof.
  induction rest as [| [itemName item] rest IH]; intros Hrec Hcar i output w Hi; [done |].
  assert (IH' := IH (fun n x H => Hrec n x (or_intror H))
                    (fun n x H => Hcar n x (or_intror H))). clear IH.
  cbn [eachItem].
  destruct (Js.eqb itemName ".gitignore"); [by apply IH' |].
  destruct (Js.startsWith itemName "."); [by apply IH' |].
  destruct (shouldIgnore _ _ _ _) as [[] | e]; [by apply IH' | | done].
  destruct item as [size content | sub].
  - destruct (analyzeJs && (Z.of_nat currentDepth <=? maxDepth)%Z); [| by apply IH'].
    destruct (isSupportedFile _ _) as [[] | e]; [| by apply IH' | done].
    match goal with
    | |- context [analyzeFile ?P init1 ?a ?b ?c ?d ?e ?f] =>
        rewrite (analyzeFile_initialized init1 init2 a b c d e f Hi);
        pose proof (analyzeFile_carriesOn P init2 a b c d e f) as [Hrt _];
        destruct (analyzeFile P init2 a b c d e f) as [found w1]
    end.
    apply IH'. by apply Hrt.
  - pose proof (Hcar itemName (Dir sub) (or_introl eq_refl)) as Hc.
    match goal with
    | |- context [recur1 ?a ?b ?c ?d ?e] =>
        specialize (Hc b c d e) as [Hrt _];
        rewrite (Hrec itemName (Dir sub) (or_introl eq_refl) b c d e Hi) in Hrt |- *;
        destruct (recur2 a b c d e) as [out1 w1]
    end.
    apply IH'. by apply Hrt.
Qed.

(** X10.  A walk that starts with the parser runtime initialized never runs
    the initialization again: text and state are the same whatever the
    initialization would do, and at the end the runtime is still initialized
    and holds the grammars it held. *)
Theorem X10_initialized_walk_never_initializes
    (init1 init2 : Runtime Grammar -> option Error * Runtime Grammar) (target : FsNode)
    (dirPath rootPath ignorePatterns : list string) (filePatterns : option (list string))
    (indent : string) (analyzeJs includeSymbols : bool) (symbolType : string)
    (currentDepth : nat) (maxDepth : Z) (w : World Grammar) :
  initialized (runtime w) = true ->
  let result :=
    getDirectoryTree parse init1 target dirPath rootPath ignorePatterns filePatterns indent
      analyzeJs includeSymbols symbolType currentDepth maxDepth w in
  result
  = getDirectoryTree parse init2 target dirPath rootPath ignorePatterns filePatterns indent
      analyzeJs includeSymbols symbolType currentDepth maxDepth w
  /\ initialized (runtime (snd result)) = true
  /\ languageInstances (runtime (snd result)) = languageInstances (runtime w).
Proof.
  intros Hi result. subst result.
  split; [| by apply (walk_carriesOn parse init1 target)].
  revert dirPath ignorePatterns indent analyzeJs currentDepth w Hi.
  induction target as [size content | items IH] using FsNode_induction;
    intros dirPath ignorePatterns indent analyzeJs currentDepth w Hi; [done |].
  rewrite !walk_Dir. apply loop_initialized.
  - intros itemName item Hin itemPath childIndent shouldAnalyze w0 Hi0.
    rewrite Forall_forall in IH. apply list_elem_of_In in Hin. by apply (IH _ Hin).
  - intros itemName item Hin itemPath childIndent shouldAnalyze w0. apply walk_carriesOn.
  - by apply (own_carriesOn items w).
Qed.

(** *** The store *)

Lemma storeSymbols_coherent (cs : CodeSymbols) (itemPath : string) (symbols : FileSymbolTable) :
  coherent cs -> coherent (storeSymbols cs itemPath symbols).
Proof.
  intros (Hf & Hv & Hc & Hi & He). unfold coherent, storeSymbols. cbn.
  rewrite !dom_insert_L. by rewrite Hf, Hv, Hc, Hi, He.
Qed.

Lemma analyzeFile_store initializeTreeSitter (P : CodeSymbols -> Prop)
    (itemPath content childIndent : string) (includeSymbols : bool) (symbolType : string)
    (w : World Grammar) :
  (forall cs path symbols, P cs -> P (storeSymbols cs path symbols)) ->
  P (codeSymbols w) ->
  P (codeSymbols (snd (analyzeFile parse initializeTreeSitter itemPath content childIndent
                         includeSymbols symbolType w))).
Proof.
  intros Hstore Hw. unfold analyzeFile.
  destruct (extractCodeSymbols _ _ _ _ _) as [[[symbols |] | e] rt]; cbn; auto.
Qed.

Lemma loop_store initializeTreeSitter (P : CodeSymbols -> Prop) rootPath filePatterns
    includeSymbols symbolType maxDepth dirPath allIgnorePatterns indent analyzeJs
    currentDepth count recur rest :
  (forall cs path symbols, P cs -> P (storeSymbols cs path symbols)) ->
  (forall itemName item, In (itemName, item) rest ->
     forall itemPath childIndent shouldAnalyze (w : World Grammar),
       P (codeSymbols w) ->
       P (codeSymbols (snd (recur item itemPath childIndent shouldAnalyze w)))) ->
  forall i output w,
    P (codeSymbols w) ->
    P (codeSymbols
         (snd (eachItem parse initializeTreeSitter rootPath filePatterns includeSymbols
                 symbolType maxDepth dirPath allIgnorePatterns indent analyzeJs
                 currentDepth count recur rest i output w))).
Proof.
  intros Hstore. induction rest as [| [itemName item] rest IH]; intros Hrec i output w Hw;
    [done |].
  assert (IH' := IH (fun n x H => Hrec n x (or_intror H))). clear IH.
  cbn [eachItem].
  destruct (Js.eqb itemName ".gitignore"); [by apply IH' |].
  destruct (Js.startsWith itemName "."); [by apply IH' |].
  destruct (shouldIgnore _ _ _ _) as [[] | e]; [by apply IH' | | done].
  destruct item as [size content | sub].
  - destruct (analyzeJs && (Z.of_nat currentDepth <=? maxDepth)%Z); [| by apply IH'].
    destruct (isSupportedFile _ _) as [[] | e]; [| by apply IH' | done].
    match goal with
    | |- context [analyzeFile ?P' ?I ?a ?b ?c ?d ?e ?f] =>
        pose proof (analyzeFile_store I P a b c d e f Hstore Hw) as Hs;
        destruct (analyzeFile P' I a b c d e f) as [found w1]
    end.
    by apply IH'.
  - pose proof (Hrec itemName (Dir sub) (or_introl eq_refl)) as Hs.
    match goal with
    | |- context [recur ?a ?b ?c ?d ?e] =>
        specialize (Hs b c d e Hw); destruct (recur a b c d e) as [out1 w1]
    end.
    by apply IH'.
Qed.

(** Whatever holds of the store and is kept when the symbols of a file are
    stored holds after a walk. *)
Lemma walk_store initializeTreeSitter (P : CodeSymbols -> Prop) (target : FsNode) :
  (forall cs path symbols, P cs -> P (storeSymbols cs path symbols)) ->
  forall dirPath rootPath ignorePatterns filePatterns indent analyzeJs includeSymbols
         symbolType currentDepth maxDepth (w : World Grammar),
    P (codeSymbols w) ->
    P (codeSymbols
         (snd (getDirectoryTree parse initializeTreeSitter target dirPath rootPath
                 ignorePatterns filePatterns indent analyzeJs includeSymbols symbolType
                 currentDepth maxDepth w))).
Proof.
  intros Hstore.
  induction target as [size content | items IH] using FsNode_induction; intros; [done |].
  rewrite walk_Dir. apply loop_store; [done | |].
  - intros itemName item Hin itemPath childIndent shouldAnalyze w0 Hw0.
    rewrite Forall_forall in IH. apply list_elem_of_In in Hin. by apply (IH _ Hin).
  - by rewrite (proj2 (own_patterns items w)).
Qed.

(** X11.  The store stays coherent through a walk: when the five maps have
    the analyzed files as their keys before, they have them after, so the
    number of files the run reports is the number of lists each total is
    summed over.  The empty store a run with analysis starts from is
    coherent. *)
Theorem X11_store_stays_coherent
    (initializeTreeSitter : Runtime Grammar -> option Error * Runtime Grammar)
    (target : FsNode) (dirPath rootPath ignorePatterns : list string)
    (filePatterns : option (list string)) (indent : string)
    (analyzeJs includeSymbols : bool) (symbolType : string)
    (currentDepth : nat) (maxDepth : Z) (w : World Grammar) :
  let store :=
    codeSymbols
      (snd (getDirectoryTree parse initializeTreeSitter target dirPath rootPath
              ignorePatterns filePatterns indent analyzeJs includeSymbols symbolType
              currentDepth maxDepth w)) in
  coherent emptyCodeSymbols
  /\ (coherent (codeSymbols w) ->
      coherent store
      /\ size (cs_files store) = size (dom (cs_functions store))
      /\ forall p, p ∈ cs_files store <-> is_Some (cs_functions store !! p)).
Proof.
  intros store. subst store. split.
  { unfold coherent, emptyCodeSymbols. cbn. by rewrite !dom_empty_L. }
  intros Hw.
  pose proof (walk_store initializeTreeSitter coherent target storeSymbols_coherent
                dirPath rootPath ignorePatterns filePatterns indent analyzeJs includeSymbols
                symbolType currentDepth maxDepth w Hw) as Hc.
  split; [exact Hc |]. destruct Hc as (Hf & _). split; [by rewrite Hf |].
  intros p. by rewrite <- Hf, elem_of_dom.
Qed.

End WalkerInvariants.


(** The sample walk with an initialization that would throw. *)
Lemma X10_witness :
  sampleWalk scenarioE_root true false "all" 1
  = getDirectoryTree sampleParse (fun rt => (Some (mkError "no parsers"), rt)) scenarioE_root
      ["project"] ["project"] [] None EmptyString true false "all" 0 1%Z sampleWorld.
Proof.
  refine (proj1 (X10_initialized_walk_never_initializes sampleParse sampleInitialize
                   (fun rt => (Some (mkError "no parsers"), rt)) scenarioE_root
                   ["project"] ["project"] [] None EmptyString true false "all" 0 1%Z
                   sampleWorld _)).
  reflexivity.
Defined.

(** The sample walk starts from the empty store. *)
Lemma X11_witness :
  coherent (codeSymbols (snd (sampleWalk scenarioE_root true false "all" 1))).
Proof.
  refine (proj1 (proj2 (X11_store_stays_coherent sampleParse sampleInitialize scenarioE_root
                          ["project"] ["project"] [] None EmptyString true false "all" 0 1%Z
                          sampleWorld) _)).
  exact (proj1 (X11_store_stays_coherent sampleParse sampleInitialize scenarioE_root
                  ["project"] ["project"] [] None EmptyString true false "all" 0 1%Z
                  sampleWorld)).
Defined.

(* ================================================================== *)
(** * Further properties: exports, and what is analyzed *)
(* ================================================================== *)

(** *** Exported declarations *)

(** X12.  An exported function declaration gives two export records with
    the same position and code, those of the export statement: one for the
    statement, with the items of its export specifiers, and one for the
    declaration, with the name of the function as its only item.  The
    exports listing of [export function foo() {}] has two lines. *)
Theorem X12_exported_declaration_recorded_twice (tree : Node) (p n nameNode : SyntaxNode) :
  In n (descendants (rootOf tree)) ->
  type n = "function_declaration" ->
  parentNode n = Some p ->
  type p = "export_statement" ->
  childForFieldName n "name" = Some nameNode ->
  Js.truthy (text nameNode) = true ->
  let found := exports (extractFromTree jsWasm (rootOf tree)) in
  In (mkExport ((fun sourceNode => Js.stripQuotes (text sourceNode))
                  <$> childForFieldName p "source")
        (omap jsExportItemOf (descendantsOfType p ["export_specifier"]))
        (textIs (childForFieldName p "default") "default") (getPosition p) (text p)) found
  /\ In (mkExport None [mkItem (text nameNode) None]
           (textIs (childForFieldName p "default") "default") (getPosition p) (text p)) found
  /\ map exp_items (exports (extractFromTree jsWasm (rootOf exportedFn_tree)))
     = [[]; [mkItem "foo" None]]
  /\ exportsListing EmptyString "exports" (extractFromTree jsWasm (rootOf exportedFn_tree))
     = "    Exports:" +:+ nl +:+ "    - export" +:+ nl +:+ "    - export: foo" +:+ nl.
Proof.
  intros Hn Tn Pn Tp Nn Hname found. subst found.
  split; [| split; [| split; vm_compute; reflexivity]];
    rewrite extractFromTree_js; cbn [exports]; unfold jsExports.
  - apply (in_omap_intro _ _ p).
    + apply descendantsOfType_In. split; [by apply (parent_in_tree tree n p) |].
      rewrite Tp. by left.
    + unfold jsExportOf. by rewrite Tp.
  - apply (in_omap_intro _ _ n).
    + apply descendantsOfType_In. split; [done |]. rewrite Tn. cbn. tauto.
    + unfold jsExportOf. rewrite Tn, Pn, Tp. cbn [Js.eqb string_dec].
      change (Js.eqb "function_declaration" "export_statement") with false.
      change (Js.eqb "export_statement" "export_statement") with true.
      change (Js.eqb "function_declaration" "function_declaration") with true.
      cbv iota. by rewrite Nn, Hname.
Qed.

Lemma X12_witness :
  In (mkExport None [mkItem "foo" None] false (mkPosition 1 0 1 24) exportedFn_source)
     (exports (extractFromTree jsWasm (rootOf exportedFn_tree))).
Proof.
  refine (proj1 (proj2
            (X12_exported_declaration_recorded_twice exportedFn_tree
               (firstOfType exportedFn_tree "export_statement")
               (firstOfType exportedFn_tree "function_declaration")
               (firstOfType exportedFn_tree "identifier") _ _ _ _ _ _))).
  - vm_compute. tauto.
  - vm_compute. reflexivity.
  - vm_compute. reflexivity.
  - vm_compute. reflexivity.
  - vm_compute. reflexivity.
  - vm_compute. reflexivity.
Defined.

(** *** Nothing is analyzed that is not listed *)

Section ShownOnly.

Context {Grammar : Type}.
Variable parse : Grammar -> string -> Error + Node.
Variable initializeTreeSitter : Runtime Grammar -> option Error * Runtime Grammar.

Lemma addsShown_trans rootPath items dirPath ignorePatterns (w1 w2 w3 : World Grammar) :
  addsShown rootPath items dirPath ignorePatterns w1 w2 ->
  addsShown rootPath items dirPath ignorePatterns w2 w3 ->
  addsShown rootPath items dirPath ignorePatterns w1 w3.
Proof.
  intros H12 H23 p Hp. destruct (H23 p Hp) as [H | H]; [by apply H12 | by right].
Qed.

Lemma loop_addsShown rootPath filePatterns includeSymbols symbolType maxDepth dirPath
    ignorePatterns indent analyzeJs currentDepth count recur items rest :
  (forall e, In e rest -> In e items) ->
  (forall itemName sub, In (itemName, Dir sub) rest ->
     forall childIndent shouldAnalyze w,
       addsShown rootPath sub (Path.join dirPath itemName)
         (allPatternsIn items ignorePatterns) w
         (snd (recur (Dir sub) (Path.join dirPath itemName) childIndent shouldAnalyze w))) ->
  forall i output w,
    addsShown rootPath items dirPath ignorePatterns w
      (snd (eachItem parse initializeTreeSitter rootPath filePatterns includeSymbols
              symbolType maxDepth dirPath (allPatternsIn items ignorePatterns) indent
              analyzeJs currentDepth count recur rest i output w)).
Proof.
  induction rest as [| [itemName item] rest IH]; intros Hincl Hrec i output w.
  - intros p Hp. by left.
  - assert (IH' := IH (fun e H => Hincl e (or_intror H))
                      (fun n x H => Hrec n x (or_intror H))). clear IH.
    assert (Hitem := Hincl _ (or_introl eq_refl)).
    cbn [eachItem].
    destruct (hidden itemName) eqn:Hh.
    { unfold hidden in Hh. destruct (Js.eqb itemName ".gitignore"); [apply IH' |].
      cbn in Hh. rewrite Hh. apply IH'. }
    destruct (hidden_false _ Hh) as [-> ->].
    destruct (shouldIgnore _ _ _ _) as [[] | e] eqn:Hs;
      [apply IH' | | intros p Hp; by left].
    assert (Hshown : shown rootPath items dirPath ignorePatterns itemName item) by done.
    destruct item as [size content | sub].
    + destruct (analyzeJs && (Z.of_nat currentDepth <=? maxDepth)%Z); [| apply IH'].
      destruct (isSupportedFile _ _) as [[] | e]; [| apply IH' | intros p Hp; by left].
      match goal with
      | |- context [analyzeFile ?P ?I ?a ?b ?c ?d ?e ?f] =>
          pose proof (analyzeFile_files P I a b c d e f) as Hfiles;
          destruct (analyzeFile P I a b c d e f) as [found w1]
      end.
      eapply addsShown_trans; [| apply IH'].
      intros p Hp. destruct (Hfiles p Hp) as [H | ->]; [by left | right].
      exists [itemName], size, content. split; [by apply Passed_here | done].
    + specialize (Hrec itemName sub (or_introl eq_refl)).
      match goal with
      | |- context [recur ?a ?b ?c ?d ?e] =>
          specialize (Hrec c d e); destruct (recur a b c d e) as [out1 w1]
      end.
      eapply addsShown_trans; [| apply IH'].
      intros p Hp.
      destruct (Hrec p Hp) as [H | (names & size & content & Hpass & ->)]; [by left |].
      right. exists (itemName :: names), size, content.
      split; [eapply Passed_below; [exact Hitem | exact Hshown | exact Hpass] |].
      unfold Path.join. by rewrite <- app_assoc.
Qed.

Lemma walk_addsShown (target : FsNode) :
  forall dirPath rootPath ignorePatterns filePatterns indent analyzeJs includeSymbols
         symbolType currentDepth maxDepth w,
    addsShown rootPath (entriesOf target) dirPath ignorePatterns w
      (snd (getDirectoryTree parse initializeTreeSitter target dirPath rootPath
              ignorePatterns filePatterns indent analyzeJs
              includeSymbols symbolType currentDepth maxDepth w)).
Proof.
  induction target as [size content | items IH] using FsNode_induction; intros.
  - intros p Hp. by left.
  - rewrite walk_Dir. cbn [entriesOf].
    eapply addsShown_trans; [| apply loop_addsShown].
    + intros p Hp. left. by rewrite (proj2 (own_patterns items w)) in Hp.
    + done.
    + intros itemName sub Hin childIndent shouldAnalyze w0.
      rewrite Forall_forall in IH. apply list_elem_of_In in Hin.
      apply (IH _ Hin).
Qed.

Lemma last_join (dirPath : list string) (itemName : string) :
  List.last (Path.join dirPath itemName) EmptyString = itemName.
Proof. unfold Path.join. apply last_last. Qed.

(** On the way to an entry that is reached, no name is hidden and none is
    one of the names the default rules ignore. *)
Lemma Passed_names rootPath items dirPath ignorePatterns names item :
  Passed rootPath items dirPath ignorePatterns names item ->
  Forall (fun name => hidden name = false /\ ~ In name defaultNames) names.
Proof.
  assert (Hone : forall items dirPath ignorePatterns itemName item,
            shown rootPath items dirPath ignorePatterns itemName item ->
            hidden itemName = false /\ ~ In itemName defaultNames).
  { intros items0 dirPath0 ignorePatterns0 itemName item0 [Hh Hs]. split; [done |].
    intros Hin. unfold allPatternsIn in Hs.
    rewrite (default_name_ignored _ rootPath _ _ itemName Hin (last_join _ _)) in Hs.
    discriminate. }
  induction 1 as [items dirPath ignorePatterns itemName item Hin Hs
                 | items dirPath ignorePatterns itemName sub names item Hin Hs _ IH].
  - constructor; [by eapply Hone | constructor].
  - constructor; [by eapply Hone | exact IH].
Qed.

(** X13.  A walk analyzes only what it lists.  Every file it adds to the
    store is a file entry of the tree below the directory walked, reached
    through entries that are neither hidden nor ignored by the patterns in
    force where they lie; so on the way from the directory walked to a
    stored file no name starts with a dot, and none is [node_modules],
    [dist], [build] or [coverage], whatever the file patterns, the depth
    and the ignore files say. *)
Theorem X13_only_listed_files_are_analyzed (target : FsNode)
    (dirPath rootPath ignorePatterns : list string) (filePatterns : option (list string))
    (indent : string) (analyzeJs includeSymbols : bool) (symbolType : string)
    (currentDepth : nat) (maxDepth : Z) (w : World Grammar) (p : string) :
  p ∈ cs_files (codeSymbols
                  (snd (getDirectoryTree parse initializeTreeSitter target dirPath rootPath
                          ignorePatterns filePatterns indent analyzeJs includeSymbols
                          symbolType currentDepth maxDepth w))) ->
  p ∈ cs_files (codeSymbols w)
  \/ exists names size content,
       Passed rootPath (entriesOf target) dirPath ignorePatterns names (File size content)
       /\ p = Path.toString (dirPath ++ names)
       /\ Forall (fun name => Js.startsWith name "." = false
                              /\ ~ In name ["node_modules"; "dist"; "build"; "coverage"])
                 names.
Proof.
  intros Hp. destruct (walk_addsShown target _ _ _ _ _ _ _ _ _ _ _ p Hp)
    as [H | (names & size & content & Hpass & Ep)]; [by left |].
  right. exists names, size, content. split; [done |]. split; [done |].
  eapply Forall_impl; [exact (Passed_names _ _ _ _ _ _ Hpass) |].
  intros name [Hh Hn]. split; [| exact Hn]. by apply hidden_false in Hh as [_ ?].
Qed.

End ShownOnly.

(** The one file stored by the walk of the sample root with [maxDepth] 0. *)
Lemma X13_witness :
  "/project/a.js" ∈ cs_files (codeSymbols sampleWorld)
  \/ exists names size content,
       Passed ["project"] (entriesOf scenarioE_root) ["project"] [] names (File size content)
       /\ "/project/a.js" = Path.toString (["project"] ++ names)
       /\ Forall (fun name => Js.startsWith name "." = false
                              /\ ~ In name ["node_modules"; "dist"; "build"; "coverage"])
                 names.
Proof.
  refine (X13_only_listed_files_are_analyzed sampleParse sampleInitialize scenarioE_root
            ["project"] ["project"] [] None EmptyString true false "all" 0 0%Z sampleWorld
            "/project/a.js" _).
  vm_compute. reflexivity.
Defined.
